(** * GMGN token API wrapper: a shallow embedding of [gmgn_api.py]

    The development follows the layout of the Python module: Python values
    and the builtins the module relies on, the enumerations, the [Token]
    data class, [QueryParameters], [FilterCriteria], the retrying HTTP
    client, the response parser, the filter classes and the convenience
    methods of [GMGNTokenAPI].  Definitions come first, theorems after. *)

From stdpp Require Import gmap strings list pretty.
From Stdlib Require Import QArith.

Set Warnings "-register-all".
#[local] Open Scope string_scope.
#[local] Open Scope list_scope.
#[local] Open Scope Z_scope.

(** ** Python values *)

(** A Python [float].  A finite value is kept as the rational it is equal to
    (the doubles are a subset of the rationals; the operations below round
    their results to a double); the two infinities and NaN are separate
    constructors because comparisons and [int()] treat them differently. *)
Inductive pyfloat :=
  | FNum (q : Q)
  | FPosInf
  | FNegInf
  | FNaN.

(** The objects a decoded JSON document is made of. *)
Inductive pyval :=
  | VNone
  | VBool (b : bool)
  | VInt (z : Z)
  | VFloat (f : pyfloat)
  | VStr (s : string)
  | VList (l : list pyval)
  | VDict (d : gmap string pyval).

(** The exceptions that occur in the module.  [Exception] stands for any
    exception class that is none of the others; it carries its [str()]. *)
Inductive pyexc :=
  | TypeError
  | ValueError
  | OverflowError
  | NameError (name : string)
  | GMGNAPIError (status_code : Z) (message : string)
  | GMGNParsingError (message : string)
  | Exception (text : string).

(** A computation that returns a value or raises. *)
Inductive result (A : Type) :=
  | Ok (a : A)
  | Raise (e : pyexc).
Arguments Ok {A} a.
Arguments Raise {A} e.

#[export] Instance result_ret : MRet result := fun A a => Ok a.
#[export] Instance result_bind : MBind result := fun A B f m =>
  match m with
  | Ok a => f a
  | Raise e => Raise e
  end.

#[export] Instance result_fmap : FMap result := fun A B f m =>
  match m with
  | Ok a => Ok (f a)
  | Raise e => Raise e
  end.

Definition is_Ok {A} (r : result A) : Prop := ∃ a, r = Ok a.

(** [isinstance(e, (ValueError, TypeError))]. *)
Definition is_value_or_type_error (e : pyexc) : bool :=
  match e with
  | TypeError | ValueError => true
  | _ => false
  end.

(** ** Float comparisons and arithmetic *)

Definition Qlt_bool (p q : Q) : bool := negb (Qle_bool q p).

(** [a < b] on floats: false as soon as one side is NaN. *)
Definition flt (a b : pyfloat) : bool :=
  match a, b with
  | FNaN, _ | _, FNaN => false
  | FNum p, FNum q => Qlt_bool p q
  | FNum _, FPosInf => true
  | FNum _, FNegInf => false
  | FPosInf, _ => false
  | FNegInf, FNegInf => false
  | FNegInf, _ => true
  end.

(** [a > b] is [b < a]. *)
Definition fgt (a b : pyfloat) : bool := flt b a.

(** [a <= b] on floats. *)
Definition fle (a b : pyfloat) : bool :=
  match a, b with
  | FNaN, _ | _, FNaN => false
  | FNum p, FNum q => Qle_bool p q
  | FNum _, FPosInf => true
  | FNum _, FNegInf => false
  | FPosInf, FPosInf => true
  | FPosInf, _ => false
  | FNegInf, _ => true
  end.

(** [bool(x)] for a float: only zero is falsy. *)
Definition float_truthy (a : pyfloat) : bool :=
  match a with
  | FNum q => negb (Qeq_bool q 0)
  | _ => true
  end.

(** ** Rounding to a double

    The result of an arithmetic operation, and of converting an [int], is the
    double nearest to the exact value, ties going to the even mantissa; a
    magnitude that rounds to [2^1024] or more becomes an infinity.  Signed
    zeros are not told apart. *)

Definition pow2 (e : Z) : Q :=
  if 0 <=? e then inject_Z (2 ^ e) else 1 # Z.to_pos (2 ^ (- e)).

(** The largest [l] with [2^l <= n/d]. *)
Definition floor_log2 (n d : positive) : Z :=
  let l := Z.log2 (Z.pos n) - Z.log2 (Z.pos d) in
  let reached := if 0 <=? l then Z.pos d * 2 ^ l <=? Z.pos n
                 else Z.pos d <=? Z.pos n * 2 ^ (- l) in
  if reached then l else l - 1.

(** [N / D] rounded to the nearest integer, a tie to the even one. *)
Definition round_half_even (N D : Z) : Z :=
  let quotient := N / D in
  match 2 * (N mod D) ?= D with
  | Lt => quotient
  | Gt => quotient + 1
  | Eq => if Z.even quotient then quotient else quotient + 1
  end.

(** The double nearest to [n/d]: a mantissa [m] of at most 53 bits and an
    exponent [e], which is held at [-1074] for the subnormal numbers. *)
Definition round_pos (n d : positive) : pyfloat :=
  let e := Z.max (floor_log2 n d - 52) (-1074) in
  let m := if 0 <=? e then round_half_even (Z.pos n) (Z.pos d * 2 ^ e)
           else round_half_even (Z.pos n * 2 ^ (- e)) (Z.pos d) in
  if (0 <=? e) && (2 ^ 1024 <=? m * 2 ^ e) then FPosInf
  else FNum (Qred (inject_Z m * pow2 e)).

Definition fneg (a : pyfloat) : pyfloat :=
  match a with
  | FNum q => FNum (- q)
  | FPosInf => FNegInf
  | FNegInf => FPosInf
  | FNaN => FNaN
  end.

Definition round_double (q : Q) : pyfloat :=
  match Qnum q with
  | 0 => FNum 0
  | Z.pos n => round_pos n (Qden q)
  | Z.neg n => fneg (round_pos n (Qden q))
  end.

(** A float as the interpreter holds it: a rational that is not a double
    stands for the literal of that value, which reads as the nearest
    double. *)
Definition as_double (a : pyfloat) : pyfloat :=
  match a with
  | FNum q => round_double q
  | other => other
  end.

(** [a - b]: the exact difference, rounded. *)
Definition fsub (a b : pyfloat) : pyfloat :=
  match a, b with
  | FNaN, _ | _, FNaN => FNaN
  | FNum p, FNum q => round_double (p - q)
  | FNum _, FPosInf => FNegInf
  | FNum _, FNegInf => FPosInf
  | FPosInf, FPosInf => FNaN
  | FPosInf, _ => FPosInf
  | FNegInf, FNegInf => FNaN
  | FNegInf, _ => FNegInf
  end.

(** [a / k] for a finite positive constant [k] (the module only divides by
    [100.0] and [10.0]): the exact quotient, rounded. *)
Definition fdiv_const (a : pyfloat) (k : Q) : pyfloat :=
  match a with
  | FNum p => round_double (p / k)
  | other => other
  end.

(** The builtins [min(a, b)] and [max(a, b)]: the first argument is kept
    unless the second compares strictly below (above) it. *)
Definition py_min (a b : pyfloat) : pyfloat := if flt b a then b else a.
Definition py_max (a b : pyfloat) : pyfloat := if fgt b a then b else a.

Definition float_of_Z (z : Z) : pyfloat := FNum (inject_Z z).

(** ** The builtins [float()], [int()] and [bool()] *)

(** Reading a number out of a string is the interpreter's business; the two
    literal grammars are taken as given. *)
Class PyStrConv := {
  float_of_str : string → option pyfloat;
  int_of_str : string → option Z
}.

(** An [int] converts to a [float] when it rounds to a finite double, that
    is when its magnitude is below [2^1024 - 2^970]; beyond that [float()]
    raises [OverflowError].  The value is the nearest double: an [int] of
    more than 53 bits loses its low bits. *)
Definition float_int_bound : Z := 2 ^ 1024 - 2 ^ 970.

Definition py_float `{PyStrConv} (v : pyval) : result pyfloat :=
  match v with
  | VNone => Raise TypeError
  | VBool b => Ok (float_of_Z (if b then 1 else 0))
  | VInt z =>
      if Z.abs z <? float_int_bound then Ok (round_double (inject_Z z))
      else Raise OverflowError
  | VFloat f => Ok (as_double f)
  | VStr s => match float_of_str s with Some f => Ok f | None => Raise ValueError end
  | VList _ | VDict _ => Raise TypeError
  end.

(** [int(x)] on a finite float drops the fractional part (rounds towards
    zero). *)
Definition Qtrunc (q : Q) : Z := Z.quot (Qnum q) (Z.pos (Qden q)).

Definition py_int `{PyStrConv} (v : pyval) : result Z :=
  match v with
  | VNone => Raise TypeError
  | VBool b => Ok (if b then 1 else 0)
  | VInt z => Ok z
  | VFloat (FNum q) => Ok (Qtrunc q)
  | VFloat FNaN => Raise ValueError
  | VFloat _ => Raise OverflowError
  | VStr s => match int_of_str s with Some z => Ok z | None => Raise ValueError end
  | VList _ | VDict _ => Raise TypeError
  end.

Definition py_bool (v : pyval) : bool :=
  match v with
  | VNone => false
  | VBool b => b
  | VInt z => negb (z =? 0)
  | VFloat f => float_truthy f
  | VStr s => negb (String.eqb s "")
  | VList l => match l with [] => false | _ => true end
  | VDict d => match map_to_list d with [] => false | _ => true end
  end.

(** [d.get(key, default)]. *)
Definition dict_get (d : gmap string pyval) (key : string) (default : pyval) : pyval :=
  match d !! key with
  | Some v => v
  | None => default
  end.

(** [l[:n]]: a negative bound counts from the end of the list. *)
Definition slice_to {A} (l : list A) (n : Z) : list A :=
  if n <? 0 then take (Z.to_nat (Z.max 0 (Z.of_nat (length l) + n))) l
  else take (Z.to_nat n) l.

(** [type(v)] as it prints in an f-string. *)
Definition type_repr (v : pyval) : string :=
  match v with
  | VNone => "<class 'NoneType'>"
  | VBool _ => "<class 'bool'>"
  | VInt _ => "<class 'int'>"
  | VFloat _ => "<class 'float'>"
  | VStr _ => "<class 'str'>"
  | VList _ => "<class 'list'>"
  | VDict _ => "<class 'dict'>"
  end.

(** ** Enumerations *)

Inductive Chain := ETHEREUM | BINANCE_SMART_CHAIN | BASE | SOLANA | TRON.

Inductive TimePeriod :=
  | ONE_MINUTE | FIVE_MINUTES | ONE_HOUR | SIX_HOURS | TWENTY_FOUR_HOURS.

Inductive SortCriteria :=
  | OPEN_TIMESTAMP | LIQUIDITY | MARKETCAP | BLUECHIP_OWNER_PERCENTAGE
  | HOLDER_COUNT | SMARTMONEY | SWAPS | VOLUME | PRICE
  | CHANGE_1M | CHANGE_5M | CHANGE_1H.

Inductive SortDirection := ASCENDING | DESCENDING.

Definition Chain_value (c : Chain) : string :=
  match c with
  | ETHEREUM => "eth"
  | BINANCE_SMART_CHAIN => "bsc"
  | BASE => "base"
  | SOLANA => "sol"
  | TRON => "tron"
  end.

Definition TimePeriod_value (p : TimePeriod) : string :=
  match p with
  | ONE_MINUTE => "1m"
  | FIVE_MINUTES => "5m"
  | ONE_HOUR => "1h"
  | SIX_HOURS => "6h"
  | TWENTY_FOUR_HOURS => "24h"
  end.

Definition SortCriteria_value (c : SortCriteria) : string :=
  match c with
  | OPEN_TIMESTAMP => "open_timestamp"
  | LIQUIDITY => "liquidity"
  | MARKETCAP => "marketcap"
  | BLUECHIP_OWNER_PERCENTAGE => "bluechip_owner_percentage"
  | HOLDER_COUNT => "holder_count"
  | SMARTMONEY => "smartmoney"
  | SWAPS => "swaps"
  | VOLUME => "volume"
  | PRICE => "price"
  | CHANGE_1M => "change1m"
  | CHANGE_5M => "change5m"
  | CHANGE_1H => "change1h"
  end.

Definition SortDirection_value (d : SortDirection) : string :=
  match d with
  | ASCENDING => "asc"
  | DESCENDING => "desc"
  end.

#[export] Instance TimePeriod_eq_dec : EqDecision TimePeriod.
Proof. solve_decision. Defined.

(** ** The [Token] data class *)

Module Token.

(** The fields that [from_dict] coerces hold numbers; the others hold
    whatever object the mapping had under the key. *)
Record t := mk {
  id : pyval;
  chain : pyval;
  address : pyval;
  symbol : pyval;
  price : pyfloat;
  volume : pyfloat;
  liquidity : pyfloat;
  market_cap : pyfloat;
  holder_count : Z;
  swaps : Z;
  price_change_percent : pyfloat;
  price_change_percent1m : pyfloat;
  price_change_percent5m : pyfloat;
  price_change_percent1h : pyfloat;
  smart_buy_24h : Z;
  smart_sell_24h : Z;
  is_honeypot : Z;
  is_open_source : Z;
  renounced : Z;
  bluechip_owner_percentage : pyfloat;
  logo : pyval;
  buy_tax : pyval;
  sell_tax : pyval;
  total_supply : pyval;
  buys : pyval;
  sells : pyval;
  sniper_count : pyval;
  lock_info : pyval
}.

(** [Token.from_dict]: the keyword arguments are evaluated in the order they
    are written, so the first conversion that fails decides the exception. *)
Definition from_dict `{PyStrConv} (data : gmap string pyval) : result t :=
  let id := dict_get data "id" (VInt 0) in
  let chain := dict_get data "chain" (VStr "") in
  let address := dict_get data "address" (VStr "") in
  let symbol := dict_get data "symbol" (VStr "") in
  price ← py_float (dict_get data "price" (VInt 0));
  volume ← py_float (dict_get data "volume" (VInt 0));
  liquidity ← py_float (dict_get data "liquidity" (VInt 0));
  market_cap ← py_float (dict_get data "market_cap" (VInt 0));
  holder_count ← py_int (dict_get data "holder_count" (VInt 0));
  swaps ← py_int (dict_get data "swaps" (VInt 0));
  price_change_percent ← py_float (dict_get data "price_change_percent" (VInt 0));
  price_change_percent1m ← py_float (dict_get data "price_change_percent1m" (VInt 0));
  price_change_percent5m ← py_float (dict_get data "price_change_percent5m" (VInt 0));
  price_change_percent1h ← py_float (dict_get data "price_change_percent1h" (VInt 0));
  smart_buy_24h ← py_int (dict_get data "smart_buy_24h" (VInt 0));
  smart_sell_24h ← py_int (dict_get data "smart_sell_24h" (VInt 0));
  is_honeypot ← py_int (dict_get data "is_honeypot" (VInt 0));
  is_open_source ← py_int (dict_get data "is_open_source" (VInt 0));
  renounced ← py_int (dict_get data "renounced" (VInt 0));
  bluechip_owner_percentage ← py_float (dict_get data "bluechip_owner_percentage" (VInt 0));
  mret (mk id chain address symbol price volume liquidity market_cap
          holder_count swaps price_change_percent price_change_percent1m
          price_change_percent5m price_change_percent1h smart_buy_24h
          smart_sell_24h is_honeypot is_open_source renounced
          bluechip_owner_percentage
          (dict_get data "logo" VNone)
          (dict_get data "buy_tax" VNone)
          (dict_get data "sell_tax" VNone)
          (dict_get data "total_supply" VNone)
          (dict_get data "buys" VNone)
          (dict_get data "sells" VNone)
          (dict_get data "sniper_count" VNone)
          (dict_get data "lockInfo" VNone)).

End Token.

(** ** [QueryParameters] *)

Module QueryParameters.

Record t := mk {
  chain : Chain;
  time_period : TimePeriod;
  criteria : SortCriteria;
  direction : SortDirection;
  include_not_honeypot : bool;
  include_verified : bool;
  include_renounced : bool
}.

(** The constructor with the data class's defaults. *)
Definition make (chain : Chain) (time_period : TimePeriod) (criteria : SortCriteria) : t :=
  mk chain time_period criteria DESCENDING true false false.

(** [to_url_params]: the list starts with two entries and grows by
    [params.append] under each flag. *)
Definition to_url_params (self : t) : list (string * string) :=
  let params := [("orderby", SortCriteria_value (criteria self));
                 ("direction", SortDirection_value (direction self))] in
  let params := if include_not_honeypot self
                then params ++ [("filters[]", "not_honeypot")] else params in
  let params := if include_verified self
                then params ++ [("filters[]", "verified")] else params in
  let params := if include_renounced self
                then params ++ [("filters[]", "renounced")] else params in
  params.

End QueryParameters.

(** ** [FilterCriteria] *)

Module FilterCriteria.

(** A threshold is [None] or a number.  Callers pass both [int] and [float]
    literals for the float thresholds; an [int] is kept as the float of the
    same value, which compares and tests for zero the same way. *)
Record t := mk {
  min_volume : option pyfloat;
  max_volume : option pyfloat;
  min_market_cap : option pyfloat;
  max_market_cap : option pyfloat;
  min_liquidity : option pyfloat;
  max_liquidity : option pyfloat;
  min_holder_count : option Z;
  min_price_change : option pyfloat;
  max_price_change : option pyfloat;
  min_age_days : option pyfloat;
  exclude_honeypots : bool
}.

(** [FilterCriteria()] with every default. *)
Definition default : t :=
  mk None None None None None None None None None None true.

(** Truth value of an optional threshold: [None] and zero are falsy. *)
Definition threshold_set (th : option pyfloat) : bool :=
  match th with
  | None => false
  | Some x => float_truthy x
  end.

Definition int_threshold_set (th : option Z) : bool :=
  match th with
  | None => false
  | Some n => negb (n =? 0)
  end.

(** [th and value < th]. *)
Definition below (value : pyfloat) (th : option pyfloat) : bool :=
  match th with
  | None => false
  | Some x => float_truthy x && flt value x
  end.

(** [th and value > th]. *)
Definition above (value : pyfloat) (th : option pyfloat) : bool :=
  match th with
  | None => false
  | Some x => float_truthy x && fgt value x
  end.

Definition int_below (value : Z) (th : option Z) : bool :=
  match th with
  | None => false
  | Some n => negb (n =? 0) && (value <? n)
  end.

(** [matches]: the chain of early returns. *)
Definition matches (self : t) (token : Token.t) : bool :=
  if exclude_honeypots self && negb (Token.is_honeypot token =? 0) then false
  else if below (Token.volume token) (min_volume self) then false
  else if above (Token.volume token) (max_volume self) then false
  else if below (Token.market_cap token) (min_market_cap self) then false
  else if above (Token.market_cap token) (max_market_cap self) then false
  else if below (Token.liquidity token) (min_liquidity self) then false
  else if above (Token.liquidity token) (max_liquidity self) then false
  else if int_below (Token.holder_count token) (min_holder_count self) then false
  else if below (Token.price_change_percent token) (min_price_change self) then false
  else if above (Token.price_change_percent token) (max_price_change self) then false
  else if threshold_set (min_age_days self) then true
  else true.

End FilterCriteria.

(** ** Configuration *)

Record GMGNConfig := {
  base_url : string;
  timeout : Z;
  max_retries : Z;
  verbose : bool;
  user_agents : list string
}.

Definition create_default : GMGNConfig :=
  {| base_url := "https://gmgn.ai/defi/quotation/v1/rank";
     timeout := 60;
     max_retries := 3;
     verbose := false;
     user_agents :=
       ["Mozilla/5.0 (Windows NT 10.0; Win64; x64; rv:82.0) Gecko/20100101 Firefox/82.0";
        "Mozilla/5.0 (Windows NT 10.0; Win64; x64) AppleWebKit/537.36 (KHTML, like Gecko) Chrome/91.0.4472.124 Safari/537.36";
        "Mozilla/5.0 (Macintosh; Intel Mac OS X 10_15_7) AppleWebKit/537.36 (KHTML, like Gecko) Chrome/91.0.4472.124 Safari/537.36"] |}.

(** ** The HTTP client *)

(** What [_initialize_session] draws at random: the TLS client identifier and
    the user agent that goes into the headers. *)
Record Identity := {
  identifier : string;
  user_agent : string
}.

(** What one [session.get] meets.  Either the call itself raises, or a
    response comes back with a status code, a body and the outcome of
    [response.json()] (the decoded document, or the text of the exception the
    decoder raises). *)
Inductive outcome :=
  | GetRaises (text : string)
  | Response (status_code : Z) (text : string) (json : pyval + string).

(** Everything outside the program: the identity drawn by the [k]-th session
    initialisation and the fate of the [k]-th request, which may depend on the
    identity it is sent under. *)
Class World := {
  draw_identity : nat → Identity;
  session_get : nat → Identity → string → list (string * string) → outcome
}.

(** The client object, with two counters that index into the [World].
    Drawing a session is taken to succeed: what [tls_client] and
    [fake_useragent] do inside is not part of this module. *)
Record GMGNClient := {
  config : GMGNConfig;
  identity : Identity;
  sessions_made : nat;
  requests_sent : nat
}.

Definition _initialize_session `{World} (self : GMGNClient) : GMGNClient :=
  {| config := config self;
     identity := draw_identity (sessions_made self);
     sessions_made := S (sessions_made self);
     requests_sent := requests_sent self |}.

Definition refresh_session `{World} (self : GMGNClient) : GMGNClient :=
  _initialize_session self.

(** [GMGNClient(config)]. *)
Definition new_client `{World} (cfg : GMGNConfig) : GMGNClient :=
  _initialize_session
    {| config := cfg;
       identity := {| identifier := ""; user_agent := "" |};
       sessions_made := 0;
       requests_sent := 0 |}.

(** The client once one more request has gone out. *)
Definition request_counted (self : GMGNClient) : GMGNClient :=
  {| config := config self;
     identity := identity self;
     sessions_made := sessions_made self;
     requests_sent := S (requests_sent self) |}.

(** An exception caught by the [except Exception] clause of the retry loop:
    a [GMGNAPIError], or anything else, of which only [str(e)] is used. *)
Inductive caught :=
  | CaughtAPI (status_code : Z) (message : string)
  | CaughtOther (text : string).

Definition caught_exc (e : caught) : pyexc :=
  match e with
  | CaughtAPI code msg => GMGNAPIError code msg
  | CaughtOther text => Exception text
  end.

(** The body of the [try] once [session.get] has been called. *)
Definition handle_outcome (o : outcome) : pyval + caught :=
  match o with
  | GetRaises text => inr (CaughtOther text)
  | Response status_code text json =>
      if status_code =? 200 then
        match json with
        | inl document => inl document
        | inr error_text => inr (CaughtOther error_text)
        end
      else if bool_decide (status_code ∈ [403; 429; 503]) then
        inr (CaughtAPI status_code "Cloudflare block detected")
      else
        inr (CaughtAPI status_code text)
  end.

(** [range(n)]. *)
Definition py_range (n : Z) : list Z := Z.of_nat <$> seq 0 (Z.to_nat n).

(** The [for attempt in range(max_retries)] loop.  It ends with the decoded
    document when an attempt succeeds, and with [last_exception] when the
    range is used up. *)
Fixpoint retry_loop `{World} (url : string) (params : list (string * string))
    (attempts : list Z) (self : GMGNClient) (last_exception : option caught)
    : GMGNClient * (pyval + option caught) :=
  match attempts with
  | [] => (self, inr last_exception)
  | attempt :: rest =>
      let o := session_get (requests_sent self) (identity self) url params in
      let self := request_counted self in
      match handle_outcome o with
      | inl document => (self, inl document)
      | inr e =>
          let self := if attempt <? max_retries (config self) - 1
                      then refresh_session self else self in
          retry_loop url params rest self (Some e)
      end
  end.

(** The statements after the loop. *)
Definition raise_last (last_exception : option caught) : pyexc :=
  match last_exception with
  | Some (CaughtAPI code msg) => GMGNAPIError code msg
  | Some (CaughtOther text) => GMGNAPIError 500 ("Request failed: " +:+ text)
  | None => GMGNAPIError 500 "Request failed: None"
  end.

Definition make_request `{World} (self : GMGNClient) (url : string)
    (params : list (string * string)) : GMGNClient * result pyval :=
  let '(self, r) :=
    retry_loop url params (py_range (max_retries (config self))) self None in
  match r with
  | inl document => (self, Ok document)
  | inr last_exception => (self, Raise (raise_last last_exception))
  end.

(** ** Parsing *)

(** The [for item in rank_data] loop: an item that is not a dict is passed
    over, a dict on which [Token.from_dict] raises is logged and passed over,
    any other is appended to [tokens]. *)
Fixpoint parse_items `{PyStrConv} (rank_data : list pyval) (tokens : list Token.t)
    : list Token.t :=
  match rank_data with
  | [] => tokens
  | item :: rest =>
      match item with
      | VDict d =>
          match Token.from_dict d with
          | Ok token => parse_items rest (tokens ++ [token])
          | Raise _ => parse_items rest tokens
          end
      | _ => parse_items rest tokens
      end
  end.

Definition parse_response `{PyStrConv} (response : pyval) : result (list Token.t) :=
  match response with
  | VDict r =>
      match r !! "data" with
      | None => Raise (GMGNParsingError "No 'data' key in response")
      | Some data =>
          match data with
          | VDict d =>
              match d !! "rank" with
              | None => Raise (GMGNParsingError "Invalid data structure")
              | Some (VList rank_data) => Ok (parse_items rank_data [])
              | Some _ => Raise (GMGNParsingError "Rank data is not a list")
              end
          | _ => Raise (GMGNParsingError "Invalid data structure")
          end
      end
  | other => Raise (GMGNParsingError ("Expected dict, got " +:+ type_repr other))
  end.

(** ** Filters *)

(** The [TokenFilter] protocol: an object with a [filter] method from token
    lists to token lists. *)
Definition TokenFilter := list Token.t → list Token.t.

Definition BaseTokenFilter : TokenFilter := fun tokens => tokens.

(** [[token for token in tokens if self.criteria.matches(token)]]. *)
Definition CriteriaFilter (criteria : FilterCriteria.t) : TokenFilter :=
  fun tokens => List.filter (FilterCriteria.matches criteria) tokens.

(** [tokens[:self.n]]. *)
Definition TopNFilter (n : Z) : TokenFilter :=
  fun tokens => slice_to tokens n.

(** The loop of [CompositeFilter.filter], [result] being its variable. *)
Fixpoint composite_loop (filters : list TokenFilter) (result : list Token.t)
    : list Token.t :=
  match filters with
  | [] => result
  | filter_instance :: rest => composite_loop rest (filter_instance result)
  end.

Definition CompositeFilter (filters : list TokenFilter) : TokenFilter :=
  fun tokens => composite_loop filters tokens.

(** ** Name resolution *)

(** The names bound at the top level of [gmgn_api.py] once it is imported:
    its imports, classes and functions, and the attributes every module has. *)
Definition module_globals : list string :=
  ["__name__"; "__doc__"; "__package__"; "__loader__"; "__spec__"; "__file__";
   "__cached__"; "__builtins__";
   "json"; "random"; "logging";
   "Optional"; "List"; "Dict"; "Any"; "Union"; "Protocol"; "Callable";
   "Enum"; "dataclass"; "field"; "ABC"; "abstractmethod";
   "tls_client"; "UserAgent"; "rugcheck";
   "Chain"; "TimePeriod"; "SortCriteria"; "SortDirection";
   "GMGNError"; "GMGNAPIError"; "GMGNParsingError"; "GMGNConfigError";
   "Token"; "QueryParameters"; "FilterCriteria"; "GMGNConfig";
   "TokenFormatter"; "TokenFilter"; "GMGNClient"; "TokenDataParser";
   "BaseTokenFilter"; "CriteriaFilter"; "TopNFilter"; "CompositeFilter";
   "GeneralFormatter"; "VolumeFormatter"; "MarketCapFormatter";
   "GainersFormatter"; "SmallCapFormatter"; "RugcheckFormatter";
   "GMGNTokenAPI";
   "create_api"; "create_volume_query"; "create_gainers_query";
   "create_rugcheck_api"; "get_safe_tokens_with_rugcheck"; "main"].

(** The names of the [builtins] module that a global lookup can reach. *)
Definition builtin_names : list string :=
  ["ArithmeticError"; "AssertionError"; "AttributeError"; "BaseException";
   "BaseExceptionGroup"; "BlockingIOError"; "BrokenPipeError"; "BufferError";
   "BytesWarning"; "ChildProcessError"; "ConnectionAbortedError";
   "ConnectionError"; "ConnectionRefusedError"; "ConnectionResetError";
   "DeprecationWarning"; "EOFError"; "Ellipsis"; "EncodingWarning";
   "EnvironmentError"; "Exception"; "ExceptionGroup"; "FileExistsError";
   "FileNotFoundError"; "FloatingPointError"; "FutureWarning";
   "GeneratorExit"; "IOError"; "ImportError"; "ImportWarning";
   "IndentationError"; "IndexError"; "InterruptedError"; "IsADirectoryError";
   "KeyError"; "KeyboardInterrupt"; "LookupError"; "MemoryError";
   "ModuleNotFoundError"; "NameError"; "NotADirectoryError";
   "NotImplemented"; "NotImplementedError"; "OSError"; "OverflowError";
   "PendingDeprecationWarning"; "PermissionError"; "ProcessLookupError";
   "RecursionError"; "ReferenceError"; "ResourceWarning"; "RuntimeError";
   "RuntimeWarning"; "StopAsyncIteration"; "StopIteration"; "SyntaxError";
   "SyntaxWarning"; "SystemError"; "SystemExit"; "TabError"; "TimeoutError";
   "TypeError"; "UnboundLocalError"; "UnicodeDecodeError";
   "UnicodeEncodeError"; "UnicodeError"; "UnicodeTranslateError";
   "UnicodeWarning"; "UserWarning"; "ValueError"; "Warning";
   "ZeroDivisionError"; "__build_class__"; "__import__";
   "abs"; "aiter"; "all"; "anext"; "any"; "ascii"; "bin"; "bool";
   "breakpoint"; "bytearray"; "bytes"; "callable"; "chr"; "classmethod";
   "compile"; "complex"; "copyright"; "credits"; "delattr"; "dict"; "dir";
   "divmod"; "enumerate"; "eval"; "exec"; "exit"; "filter"; "float";
   "format"; "frozenset"; "getattr"; "globals"; "hasattr"; "hash"; "help";
   "hex"; "id"; "input"; "int"; "isinstance"; "issubclass"; "iter"; "len";
   "license"; "list"; "locals"; "map"; "max"; "memoryview"; "min"; "next";
   "object"; "oct"; "open"; "ord"; "pow"; "print"; "property"; "quit";
   "range"; "repr"; "reversed"; "round"; "set"; "setattr"; "slice";
   "sorted"; "staticmethod"; "str"; "sum"; "super"; "tuple"; "type"; "vars";
   "zip"].

(** Loading a name that the function body never assigns: the module's
    globals are searched, then the builtins, and [NameError] is raised when
    neither binds it.  Every object found this way is a module, a class or a
    function; it is returned by name. *)
Definition load_global (name : string) : result string :=
  if bool_decide (name ∈ module_globals) then Ok name
  else if bool_decide (name ∈ builtin_names) then Ok name
  else Raise (NameError name).

(** ** [GMGNTokenAPI] *)

Record GMGNTokenAPI := {
  api_config : GMGNConfig;
  client : GMGNClient
}.

Definition with_client (self : GMGNTokenAPI) (c : GMGNClient) : GMGNTokenAPI :=
  {| api_config := api_config self; client := c |}.

Section API.
Context `{PyStrConv} `{World}.

Definition get_tokens (self : GMGNTokenAPI) (params : QueryParameters.t)
    : GMGNTokenAPI * result (list Token.t) :=
  let url := base_url (api_config self) +:+ "/"
             +:+ Chain_value (QueryParameters.chain params) +:+ "/swaps/"
             +:+ TimePeriod_value (QueryParameters.time_period params) in
  let url_params := QueryParameters.to_url_params params in
  let '(c, response) := make_request (client self) url url_params in
  (with_client self c, response ≫= parse_response).

Definition get_tokens_with_filter (self : GMGNTokenAPI)
    (params : QueryParameters.t) (filter_instance : TokenFilter)
    : GMGNTokenAPI * result (list Token.t) :=
  let '(self, tokens) := get_tokens self params in
  (self, filter_instance <$> tokens).

Definition get_top_volume_tokens (self : GMGNTokenAPI) (chain : Chain)
    (time_period : TimePeriod) (limit : Z)
    : GMGNTokenAPI * result (list Token.t) :=
  let params := QueryParameters.make chain time_period VOLUME in
  let filter_instance := TopNFilter limit in
  get_tokens_with_filter self params filter_instance.

(** The names local to [get_top_gainers]: its parameters and the variables
    its body assigns. *)
Definition get_top_gainers_locals : list string :=
  ["self"; "chain"; "time_period"; "criteria"; "params"; "filter_instance"].

(** [get_top_gainers].  [limit] is not among the locals, so it is loaded as a
    global.  Were it found, the object would be a module, class or function,
    and slicing with it raises [TypeError] once the tokens have been
    fetched. *)
Definition get_top_gainers (self : GMGNTokenAPI) (chain : Chain)
    (time_period : TimePeriod) : GMGNTokenAPI * result (list Token.t) :=
  let criteria :=
    if decide (time_period = ONE_MINUTE) then CHANGE_1M
    else if decide (time_period = FIVE_MINUTES) then CHANGE_5M
    else if decide (time_period = ONE_HOUR) then CHANGE_1H
    else CHANGE_1H in
  let params := QueryParameters.make chain time_period criteria in
  match load_global "limit" with
  | Raise e => (self, Raise e)
  | Ok _ =>
      let '(self, tokens) := get_tokens self params in
      (self, tokens ≫= λ _, Raise TypeError)
  end.

(** The [try] block of [_extract_risk_score]. *)
Definition extract_risk_score_body (rugcheck_result : gmap string pyval)
    : result pyfloat :=
  let present key :=
    match rugcheck_result !! key with
    | Some VNone | None => None
    | Some v => Some v
    end in
  match present "score_normalised" with
  | Some v =>
      score ← py_float v;
      mret (py_max (FNum 0) (py_min (FNum 1) (fsub (FNum 1) score)))
  | None =>
      match present "score" with
      | Some v =>
          score ← py_float v;
          let normalized := fdiv_const score 100 in
          mret (py_max (FNum 0) (py_min (FNum 1) (fsub (FNum 1) normalized)))
      | None =>
          if py_bool (dict_get rugcheck_result "rugged" (VBool false)) then
            mret (FNum 1)
          else
            match rugcheck_result !! "risks" with
            | Some (VList risks) =>
                let risk_count := Z.of_nat (length risks) in
                mret (py_min (FNum 1) (fdiv_const (float_of_Z risk_count) 10))
            | _ => mret (FNum (1 # 2))
            end
      end
  end.

(** [_extract_risk_score]: [except (ValueError, TypeError)] turns these two
    into [0.5]; any other exception propagates. *)
Definition _extract_risk_score (rugcheck_result : gmap string pyval)
    : result pyfloat :=
  match extract_risk_score_body rugcheck_result with
  | Ok score => Ok score
  | Raise e => if is_value_or_type_error e then Ok (FNum (1 # 2)) else Raise e
  end.

End API.

(** ** More of [QueryParameters] and the factory functions *)

(** The constructor the [@dataclass] decorator generates, each argument
    either passed or left out.  [chain], [time_period] and [criteria] have no
    default: leaving one out raises [TypeError]. *)
Definition QueryParameters_init (chain : option Chain)
    (time_period : option TimePeriod) (criteria : option SortCriteria)
    (direction : option SortDirection)
    (include_not_honeypot include_verified include_renounced : option bool)
    : result QueryParameters.t :=
  match chain, time_period, criteria with
  | Some chain, Some time_period, Some criteria =>
      Ok (QueryParameters.mk chain time_period criteria
            (default DESCENDING direction)
            (default true include_not_honeypot)
            (default false include_verified)
            (default false include_renounced))
  | _, _, _ => Raise TypeError
  end.

Definition create_volume_query (chain : Chain) (time_period : TimePeriod)
    : QueryParameters.t :=
  QueryParameters.make chain time_period VOLUME.

Definition create_gainers_query (chain : Chain) (time_period : TimePeriod)
    : QueryParameters.t :=
  let criteria :=
    if decide (time_period = ONE_MINUTE) then CHANGE_1M
    else if decide (time_period = FIVE_MINUTES) then CHANGE_5M
    else CHANGE_1H in
  QueryParameters.make chain time_period criteria.

(** ** More of [GMGNTokenAPI] *)

(** The [TokenFormatter] protocol: an object with a [format] method from a
    token and its index to a line of text. *)
Definition TokenFormatter := Token.t → Z → string.

Section MoreAPI.
Context `{PyStrConv} `{World}.

(** [get_formatted_tokens]: the filter is applied when one is given, and the
    lines are numbered from 1. *)
Definition get_formatted_tokens (self : GMGNTokenAPI) (params : QueryParameters.t)
    (formatter : TokenFormatter) (filter_instance : option TokenFilter)
    : GMGNTokenAPI * result (list string) :=
  let '(self, tokens) := get_tokens self params in
  (self,
   tokens ← tokens;
   let tokens := match filter_instance with
                 | Some f => f tokens
                 | None => tokens
                 end in
   mret (imap (λ i token, formatter token (Z.of_nat i + 1)) tokens)).

Definition get_high_value_tokens (self : GMGNTokenAPI) (chain : Chain)
    (min_volume min_market_cap : pyfloat) (limit : Z)
    : GMGNTokenAPI * result (list Token.t) :=
  let params := QueryParameters.make chain TWENTY_FOUR_HOURS VOLUME in
  let criteria_filter :=
    CriteriaFilter (FilterCriteria.mk (Some min_volume) None (Some min_market_cap)
                      None None None None None None None true) in
  let top_filter := TopNFilter limit in
  let composite_filter := CompositeFilter [criteria_filter; top_filter] in
  get_tokens_with_filter self params composite_filter.

(** [get_safe_tokens] builds its [QueryParameters] without a
    [time_period]. *)
Definition get_safe_tokens (self : GMGNTokenAPI) (chain : Chain)
    (criteria : SortCriteria) (limit : Z)
    : GMGNTokenAPI * result (list Token.t) :=
  match QueryParameters_init (Some chain) None (Some criteria) None
          (Some true) (Some true) (Some true) with
  | Raise e => (self, Raise e)
  | Ok params =>
      let filter_instance := TopNFilter limit in
      get_tokens_with_filter self params filter_instance
  end.

(** The criteria [get_small_cap_tokens] filters with. *)
Definition small_cap_criteria : FilterCriteria.t :=
  FilterCriteria.mk None (Some (float_of_Z 300000)) None (Some (float_of_Z 200000))
    None (Some (float_of_Z 150000)) None None None (Some (float_of_Z 1)) true.

Definition get_small_cap_tokens (self : GMGNTokenAPI) (chain : Chain)
    (criteria : SortCriteria) (limit : Z)
    : GMGNTokenAPI * result (list Token.t) :=
  let params := QueryParameters.make chain TWENTY_FOUR_HOURS criteria in
  let small_cap_filter := CriteriaFilter small_cap_criteria in
  let top_filter := TopNFilter limit in
  let composite_filter := CompositeFilter [small_cap_filter; top_filter] in
  get_tokens_with_filter self params composite_filter.

Definition get_filtered_tokens (self : GMGNTokenAPI) (chain : Chain)
    (filter_criteria : FilterCriteria.t) (criteria : SortCriteria) (limit : Z)
    : GMGNTokenAPI * result (list Token.t) :=
  let params := QueryParameters.make chain TWENTY_FOUR_HOURS criteria in
  let criteria_filter := CriteriaFilter filter_criteria in
  let top_filter := TopNFilter limit in
  let composite_filter := CompositeFilter [criteria_filter; top_filter] in
  get_tokens_with_filter self params composite_filter.

End MoreAPI.

(** ** Rugcheck *)

(** The [rugcheck] library: for a token address, the dictionary
    [rugcheck(address, ...).to_dict()] yields, or the text of the exception
    raised on the way. *)
Class Rugcheck := {
  rugcheck_to_dict : pyval → gmap string pyval + string
}.

(** [str(e)]: the message an exception prints, as the interpreter and the
    libraries word it. *)
Class PyExcStr := {
  exc_str : pyexc → string
}.

(** [value <= bound] for an object against a float; only numbers compare. *)
Definition py_le_float (value : pyval) (bound : pyfloat) : result bool :=
  match value with
  | VFloat f => Ok (fle f bound)
  | VInt z => Ok (fle (float_of_Z z) bound)
  | VBool b => Ok (fle (float_of_Z (if b then 1 else 0)) bound)
  | VNone | VStr _ | VList _ | VDict _ => Raise TypeError
  end.

Section RugcheckAPI.
Context `{PyStrConv} `{World} `{Rugcheck} `{PyExcStr}.

(** The dictionary of the [except Exception] clause. *)
Definition rugcheck_error (e : pyexc) : gmap string pyval :=
  <["risk_score" := VNone]> {["error" := VStr (exc_str e)]}.

(** [check_token_rug_risk]: the chain only matters for a logged warning. *)
Definition check_token_rug_risk (token_address : pyval) (chain : Chain)
    : gmap string pyval :=
  match rugcheck_to_dict token_address with
  | inr text => rugcheck_error (Exception text)
  | inl result =>
      match _extract_risk_score result with
      | Raise e => rugcheck_error e
      | Ok risk_score =>
          let result := <["risk_score" := VFloat risk_score]> result in
          let result := <["is_rugged" := dict_get result "rugged" (VBool false)]> result in
          let result := <["rugcheck_score" := dict_get result "score" (VInt 0)]> result in
          let result :=
            <["normalized_score" :=
                dict_get result "score_normalised" (VFloat (FNum (1 # 2)))]> result in
          result
      end
  end.

(** [get_tokens_with_rugcheck]: each token paired with its rugcheck result,
    or with [None] when no check is asked for. *)
Definition get_tokens_with_rugcheck (self : GMGNTokenAPI)
    (params : QueryParameters.t) (check_rug : bool)
    : GMGNTokenAPI * result (list (Token.t * option (gmap string pyval))) :=
  let '(self, tokens) := get_tokens self params in
  (self,
   tokens ≫= λ tokens : list Token.t,
   if negb check_rug then mret ((λ token, (token, None)) <$> tokens)
   else mret ((λ token,
                 (token, Some (check_token_rug_risk (Token.address token)
                                 (QueryParameters.chain params)))) <$> tokens)).

(** The loop of [filter_safe_tokens_by_rugcheck]. *)
Fixpoint safe_tokens_loop (chain : Chain) (max_risk_score : pyfloat)
    (tokens safe_tokens : list Token.t) : result (list Token.t) :=
  match tokens with
  | [] => Ok safe_tokens
  | token :: rest =>
      let rug_result := check_token_rug_risk (Token.address token) chain in
      match rug_result !! "error" with
      | None =>
          let risk_score := dict_get rug_result "risk_score" VNone in
          match risk_score with
          | VNone => safe_tokens_loop chain max_risk_score rest safe_tokens
          | _ =>
              passed ← py_le_float risk_score max_risk_score;
              if (passed : bool)
              then safe_tokens_loop chain max_risk_score rest (safe_tokens ++ [token])
              else safe_tokens_loop chain max_risk_score rest safe_tokens
          end
      | Some _ => safe_tokens_loop chain max_risk_score rest safe_tokens
      end
  end.

Definition filter_safe_tokens_by_rugcheck (tokens : list Token.t) (chain : Chain)
    (max_risk_score : pyfloat) : result (list Token.t) :=
  safe_tokens_loop chain max_risk_score tokens [].

Definition get_rugcheck_verified_tokens (self : GMGNTokenAPI) (chain : Chain)
    (criteria : SortCriteria) (limit : Z) (max_risk_score : pyfloat)
    : GMGNTokenAPI * result (list Token.t) :=
  let params := QueryParameters.mk chain TWENTY_FOUR_HOURS criteria
                  DESCENDING true false false in
  let '(self, tokens) := get_tokens self params in
  (self,
   tokens ← tokens;
   let initial_tokens := slice_to tokens (limit * 3) in
   safe_tokens ← filter_safe_tokens_by_rugcheck initial_tokens chain max_risk_score;
   mret (slice_to safe_tokens limit)).

End RugcheckAPI.

(** ** [gmgntry.py]: the single-class wrapper *)

Module GMGNWrapper.

(** The wrapper object, with the counters that index into the [World]. *)
Record t := mk {
  timeout : Z;
  verbose : bool;
  identity : Identity;
  sessions_made : nat;
  requests_sent : nat
}.

Definition BASE_URL : string := "https://gmgn.ai/defi/quotation/v1/rank".

Section Wrapper.
Context `{PyStrConv} `{World}.

(** [randomiseRequest]: a new identifier, session and user agent. *)
Definition randomiseRequest (self : t) : t :=
  mk (timeout self) (verbose self) (draw_identity (sessions_made self))
     (S (sessions_made self)) (requests_sent self).

Definition refresh_session (self : t) : t := randomiseRequest self.

(** [GMGNWrapper(timeout, verbose)]. *)
Definition init (timeout : Z) (verbose : bool) : t :=
  randomiseRequest
    (mk timeout verbose {| identifier := ""; user_agent := "" |} 0 0).

Definition request_counted (self : t) : t :=
  mk (timeout self) (verbose self) (identity self) (sessions_made self)
     (S (requests_sent self)).

(** The query parameters as [get_token_rankings] builds them. *)
Definition rankings_params (criteria : SortCriteria) (direction : SortDirection)
    (include_not_honeypot include_verified include_renounced : bool)
    : list (string * string) :=
  let params := [("orderby", SortCriteria_value criteria);
                 ("direction", SortDirection_value direction)] in
  let params := if include_not_honeypot
                then params ++ [("filters[]", "not_honeypot")] else params in
  let params := if include_verified
                then params ++ [("filters[]", "verified")] else params in
  let params := if include_renounced
                then params ++ [("filters[]", "renounced")] else params in
  params.

Definition rankings_url (chain : Chain) (time_period : TimePeriod) : string :=
  BASE_URL +:+ "/" +:+ Chain_value chain +:+ "/swaps/" +:+ TimePeriod_value time_period.

(** The body of the [try]: the decoded document, or the text of the
    exception raised. *)
Definition attempt_result (o : outcome) : pyval + string :=
  match o with
  | GetRaises text => inr text
  | Response status_code text json =>
      if status_code =? 200 then json
      else if bool_decide (status_code ∈ [403; 429; 503]) then
        inr ("Cloudflare block detected (status " +:+ pretty status_code +:+ ")")
      else
        inr ("API request failed with status " +:+ pretty status_code
             +:+ ": " +:+ text)
  end.

(** [max_retries = 3]. *)
Definition max_retries : Z := 3.

(** The retry loop; the last attempt leaves it with [break]. *)
Fixpoint rankings_loop (url : string) (params : list (string * string))
    (attempts : list Z) (self : t) (last_exception : option string)
    : t * (pyval + option string) :=
  match attempts with
  | [] => (self, inr last_exception)
  | attempt :: rest =>
      let o := session_get (requests_sent self) (identity self) url params in
      let self := request_counted self in
      match attempt_result o with
      | inl document => (self, inl document)
      | inr e =>
          if attempt <? max_retries - 1
          then rankings_loop url params rest (refresh_session self) (Some e)
          else (self, inr (Some e))
      end
  end.

(** [get_token_rankings].  Its arguments are of the enumeration types, so
    the four [isinstance] checks pass. *)
Definition get_token_rankings (self : t) (chain : Chain) (time_period : TimePeriod)
    (criteria : SortCriteria) (direction : SortDirection)
    (include_not_honeypot include_verified include_renounced : bool)
    : t * result pyval :=
  let self := randomiseRequest self in
  let url := rankings_url chain time_period in
  let params := rankings_params criteria direction include_not_honeypot
                  include_verified include_renounced in
  let '(self, r) := rankings_loop url params (py_range max_retries) self None in
  match r with
  | inl document => (self, Ok document)
  | inr last_exception =>
      (self,
       Raise (Exception ("All " +:+ pretty max_retries
                         +:+ " attempts failed. Last error: "
                         +:+ default "None" last_exception)))
  end.

(** [parse_token_data]: the rank list, or [None]. *)
Definition parse_token_data (response : pyval) : option (list pyval) :=
  match response with
  | VDict r =>
      match r !! "data" with
      | Some (VDict data_content) =>
          match data_content !! "rank" with
          | Some (VList rank_content) =>
              match rank_content with
              | VDict _ :: _ => Some rank_content
              | _ => None
              end
          | _ => None
          end
      | _ => None
      end
  | _ => None
  end.

(** The [field_mapping] of [get_filtered_rankings]. *)
Definition field_mapping (c : SortCriteria) : option string :=
  match c with
  | VOLUME => Some "volume"
  | MARKETCAP => Some "market_cap"
  | LIQUIDITY => Some "liquidity"
  | PRICE => Some "price"
  | HOLDER_COUNT => Some "holder_count"
  | SWAPS => Some "swaps"
  | SMARTMONEY => Some "smart_buy_24h"
  | CHANGE_1M => Some "price_change_percent1m"
  | CHANGE_5M => Some "price_change_percent5m"
  | CHANGE_1H => Some "price_change_percent1h"
  | OPEN_TIMESTAMP | BLUECHIP_OWNER_PERCENTAGE => None
  end.

(** The value a token is compared by: the field, [0] when it is missing or
    [None], converted by [float()], and [0] again when the conversion raises
    [ValueError] or [TypeError]. *)
Definition token_value (token : gmap string pyval) (field_name : string)
    : result pyfloat :=
  let token_value := dict_get token field_name (VInt 0) in
  let token_value := match token_value with
                     | VNone => VInt 0
                     | other => other
                     end in
  match py_float token_value with
  | Ok x => Ok x
  | Raise e => if is_value_or_type_error e then Ok (float_of_Z 0) else Raise e
  end.

(** The inner loop over [criteria_filters.items()]: [false] at the first
    threshold the token is below. *)
Fixpoint meets_criteria (token : gmap string pyval)
    (criteria_filters : list (SortCriteria * pyfloat)) : result bool :=
  match criteria_filters with
  | [] => Ok true
  | (filter_criteria, min_value) :: rest =>
      match field_mapping filter_criteria with
      | None => meets_criteria token rest
      | Some field_name =>
          value ← token_value token field_name;
          if flt value min_value then Ok false
          else meets_criteria token rest
      end
  end.

(** The dictionary stored under [_filter_status]. *)
Definition filter_status (token : gmap string pyval)
    (criteria_filters : list (SortCriteria * pyfloat)) : gmap string pyval :=
  foldl (λ (status : gmap string pyval) '(filter_criteria, min_value),
           match field_mapping filter_criteria with
           | Some field_name =>
               <[SortCriteria_value filter_criteria :=
                   VDict (<["value" := dict_get token field_name (VInt 0)]>
                          (<["threshold" := VFloat min_value]>
                           {["passed" := VBool true]}))]> status
           | None => status
           end)
        ∅ criteria_filters.

(** The loop over [token_data]. *)
Fixpoint filter_loop (criteria_filters : list (SortCriteria * pyfloat))
    (token_data filtered_tokens : list pyval) : result (list pyval) :=
  match token_data with
  | [] => Ok filtered_tokens
  | token :: rest =>
      match token with
      | VDict d =>
          meets ← meets_criteria d criteria_filters;
          if (meets : bool) then
            let d := <["_filter_status" := VDict (filter_status d criteria_filters)]> d in
            filter_loop criteria_filters rest (filtered_tokens ++ [VDict d])
          else filter_loop criteria_filters rest filtered_tokens
      | _ => filter_loop criteria_filters rest filtered_tokens
      end
  end.

(** [get_filtered_rankings]; [criteria_filters] is the dictionary as the list
    of its items in insertion order. *)
Definition get_filtered_rankings (self : t) (chain : Chain)
    (primary_criteria : SortCriteria)
    (criteria_filters : list (SortCriteria * pyfloat))
    (time_period : TimePeriod) (direction : SortDirection)
    : t * result (list pyval) :=
  match criteria_filters with
  | [] => (self, Raise ValueError)
  | _ =>
      let '(self, response) :=
        get_token_rankings self chain time_period primary_criteria direction
          true false false in
      (self,
       response ≫= λ response : pyval,
       match parse_token_data response with
       | None => Ok []
       | Some token_data => filter_loop criteria_filters token_data []
       end)
  end.

(** [get_high_value_tokens]: only the thresholds above zero are used. *)
Definition get_high_value_tokens (self : t) (chain : Chain)
    (primary_criteria : SortCriteria)
    (min_volume min_market_cap min_liquidity : pyfloat)
    (time_period : TimePeriod) : t * result (list pyval) :=
  let criteria_filters :=
    (if fgt min_volume (float_of_Z 0) then [(VOLUME, min_volume)] else [])
    ++ (if fgt min_market_cap (float_of_Z 0) then [(MARKETCAP, min_market_cap)] else [])
    ++ (if fgt min_liquidity (float_of_Z 0) then [(LIQUIDITY, min_liquidity)] else []) in
  match criteria_filters with
  | [] => (self, Raise ValueError)
  | _ => get_filtered_rankings self chain primary_criteria criteria_filters
           time_period DESCENDING
  end.

End Wrapper.

End GMGNWrapper.

(** ** Data for the closed examples *)

(** A converter that reads no string as a number.  The closed examples below
    run on documents that hold no string where a number is expected, so the
    choice of converter does not show in them. *)
Definition no_numeric_strings : PyStrConv :=
  {| float_of_str := fun _ => None; int_of_str := fun _ => None |}.

(** A token as [Token.from_dict] builds it from a document with the given
    id, symbol and 24h price change and nothing else. *)
Definition sample_token (n : Z) (sym : string) (change : Q) : Token.t :=
  Token.mk (VInt n) (VStr "") (VStr "") (VStr sym)
    (FNum 0) (FNum 0) (FNum 0) (FNum 0) 0 0
    (FNum change) (FNum 0) (FNum 0) (FNum 0) 0 0 0 0 0 (FNum 0)
    VNone VNone VNone VNone VNone VNone VNone VNone.

(** A world in which every request meets the same outcome and every session
    draws the same identity. *)
Definition constant_world (o : outcome) : World :=
  {| draw_identity := fun _ => {| identifier := "chrome_120"; user_agent := "Mozilla/5.0" |};
     session_get := fun _ _ _ _ => o |}.

(** A world in which the requests meet the outcomes of a script, one after
    the other, and the last outcome for good once the script is used up. *)
Definition scripted_world (script : list outcome) (final : outcome) : World :=
  {| draw_identity := fun k =>
       {| identifier := "chrome_" +:+ pretty k; user_agent := "Mozilla/5.0" |};
     session_get := fun k _ _ _ => nth k script final |}.

(** A client fresh from its constructor, with the given number of retries. *)
Definition client_with_retries `{World} (n : Z) : GMGNClient :=
  new_client
    {| base_url := base_url create_default;
       timeout := timeout create_default;
       max_retries := n;
       verbose := false;
       user_agents := user_agents create_default |}.

(** A rank item with an id, a symbol and a 24h price change, and the
    response of the ranking endpoint around a list of such items, one of
    which is not a dict and one of which has a null price. *)
Definition sample_item (n : Z) (sym : string) (change : Z) : gmap string pyval :=
  <["id" := VInt n]> (<["symbol" := VStr sym]>
    (<["price_change_percent" := VInt change]> ∅)).

Definition sample_rank : list pyval :=
  [VDict (sample_item 1 "AAA" 0); VStr "junk"; VDict {["price" := VNone]};
   VDict (sample_item 2 "BBB" 5)].

Definition sample_data : gmap string pyval := {["rank" := VList sample_rank]}.

Definition sample_response : gmap string pyval := {["data" := VDict sample_data]}.

(** Two criteria that differ in [min_price_change] only: [-5] in the first,
    raised to [0] in the second. *)
Definition criteria_min_change (x : Q) : FilterCriteria.t :=
  FilterCriteria.mk None None None None None None None (Some (FNum x)) None None true.

(** ** Vocabulary of the statements *)

(** A minimum threshold is raised, or set where it was [None]. *)
Definition raised (old new : option pyfloat) : Prop :=
  match old, new with
  | None, Some _ => True
  | Some a, Some b => flt a b = true
  | _, None => False
  end.

(** A maximum threshold is lowered, or set where it was [None]. *)
Definition lowered (old new : option pyfloat) : Prop :=
  match old, new with
  | None, Some _ => True
  | Some a, Some b => flt b a = true
  | _, None => False
  end.

Definition raised_int (old new : option Z) : Prop :=
  match old, new with
  | None, Some _ => True
  | Some a, Some b => a < b
  | _, None => False
  end.

(** [c'] is [c] with thresholds added or made stricter: each [min_*] field
    is unchanged or raised, each [max_*] field unchanged or lowered, and
    [exclude_honeypots] is unchanged or turned on. *)
Definition tightened (c c' : FilterCriteria.t) : Prop :=
  let same_or {A} (rel : A → A → Prop) (field : FilterCriteria.t → A) :=
    field c = field c' ∨ rel (field c) (field c') in
  same_or raised FilterCriteria.min_volume
  ∧ same_or lowered FilterCriteria.max_volume
  ∧ same_or raised FilterCriteria.min_market_cap
  ∧ same_or lowered FilterCriteria.max_market_cap
  ∧ same_or raised FilterCriteria.min_liquidity
  ∧ same_or lowered FilterCriteria.max_liquidity
  ∧ same_or raised_int FilterCriteria.min_holder_count
  ∧ same_or raised FilterCriteria.min_price_change
  ∧ same_or lowered FilterCriteria.max_price_change
  ∧ same_or raised FilterCriteria.min_age_days
  ∧ (FilterCriteria.exclude_honeypots c = true
     → FilterCriteria.exclude_honeypots c' = true).

(** Every threshold of [c'] that differs from the one of [c] is a number
    other than zero. *)
Definition changes_nonzero (c c' : FilterCriteria.t) : Prop :=
  let same_or_set (field : FilterCriteria.t → option pyfloat) :=
    field c = field c' ∨ FilterCriteria.threshold_set (field c') = true in
  same_or_set FilterCriteria.min_volume
  ∧ same_or_set FilterCriteria.max_volume
  ∧ same_or_set FilterCriteria.min_market_cap
  ∧ same_or_set FilterCriteria.max_market_cap
  ∧ same_or_set FilterCriteria.min_liquidity
  ∧ same_or_set FilterCriteria.max_liquidity
  ∧ (FilterCriteria.min_holder_count c = FilterCriteria.min_holder_count c'
     ∨ FilterCriteria.int_threshold_set (FilterCriteria.min_holder_count c') = true)
  ∧ same_or_set FilterCriteria.min_price_change
  ∧ same_or_set FilterCriteria.max_price_change.


(** The token an item of the rank list contributes, if any. *)
Definition item_token `{PyStrConv} (item : pyval) : option Token.t :=
  match item with
  | VDict d =>
      match Token.from_dict d with
      | Ok token => Some token
      | Raise _ => None
      end
  | _ => None
  end.

(** A malformed item: not a dict, or a dict on which [Token.from_dict]
    raises. *)
Definition malformed `{PyStrConv} (item : pyval) : Prop :=
  match item with
  | VDict d => ∃ e, Token.from_dict d = Raise e
  | _ => True
  end.

(** The keys whose values [Token.from_dict] passes through [float()] and
    through [int()]. *)
Definition float_keys : list string :=
  ["price"; "volume"; "liquidity"; "market_cap"; "price_change_percent";
   "price_change_percent1m"; "price_change_percent5m";
   "price_change_percent1h"; "bluechip_owner_percentage"].

Definition int_keys : list string :=
  ["holder_count"; "swaps"; "smart_buy_24h"; "smart_sell_24h"; "is_honeypot";
   "is_open_source"; "renounced"].

(** Every numeric key that is present holds a value the conversion accepts. *)
Definition coercible `{PyStrConv} (data : gmap string pyval) : Prop :=
  Forall (λ key, ∀ v, data !! key = Some v → is_Ok (py_float v)) float_keys
  ∧ Forall (λ key, ∀ v, data !! key = Some v → is_Ok (py_int v)) int_keys.

(** A field taken as it is: the default when the key is absent, the
    mapping's value otherwise. *)
Definition filled_raw (data : gmap string pyval) (key : string)
    (default field : pyval) : Prop :=
  match data !! key with
  | None => field = default
  | Some v => field = v
  end.

(** A field passed through [float()]: [0.0] when the key is absent, the
    converted value otherwise. *)
Definition filled_float `{PyStrConv} (data : gmap string pyval) (key : string)
    (field : pyfloat) : Prop :=
  match data !! key with
  | None => field = FNum 0
  | Some v => py_float v = Ok field
  end.

(** A field passed through [int()]. *)
Definition filled_int `{PyStrConv} (data : gmap string pyval) (key : string)
    (field : Z) : Prop :=
  match data !! key with
  | None => field = 0
  | Some v => py_int v = Ok field
  end.

(** The outcome of the request numbered [k] when [self] sends it. *)
Definition attempt_of `{World} (url : string) (params : list (string * string))
    (self : GMGNClient) (k : nat) : pyval + caught :=
  handle_outcome (session_get k (identity self) url params).

(** A risk score within [0.0, 1.0]. *)
Definition in_unit_interval (x : pyfloat) : Prop :=
  fle (FNum 0) x = true ∧ fle x (FNum 1) = true.

(** The keys [Token.from_dict] reads. *)
Definition token_keys : list string :=
  ["id"; "chain"; "address"; "symbol"; "logo"; "buy_tax"; "sell_tax";
   "total_supply"; "buys"; "sells"; "sniper_count"; "lockInfo"]
  ++ float_keys ++ int_keys.

(** [c] with another [min_age_days]. *)
Definition with_min_age_days (c : FilterCriteria.t) (days : option pyfloat)
    : FilterCriteria.t :=
  FilterCriteria.mk (FilterCriteria.min_volume c) (FilterCriteria.max_volume c)
    (FilterCriteria.min_market_cap c) (FilterCriteria.max_market_cap c)
    (FilterCriteria.min_liquidity c) (FilterCriteria.max_liquidity c)
    (FilterCriteria.min_holder_count c) (FilterCriteria.min_price_change c)
    (FilterCriteria.max_price_change c) days (FilterCriteria.exclude_honeypots c).

(** An API object on a client fresh from its constructor, with the default
    configuration. *)
Definition sample_api `{World} : GMGNTokenAPI :=
  {| api_config := create_default; client := new_client create_default |}.

(** A world whose endpoint always answers with the sample response. *)
Definition sample_world : World :=
  constant_world (Response 200 "{}" (inl (VDict sample_response))).

(** The test [filter_safe_tokens_by_rugcheck] puts a token to: its rugcheck
    result has no [error] key and a risk score, a float, that is at most
    [max_risk_score]. *)
Definition rugcheck_passes `{PyStrConv} `{Rugcheck} `{PyExcStr} (chain : Chain)
    (max_risk_score : pyfloat) (token : Token.t) : bool :=
  let rug_result := check_token_rug_risk (Token.address token) chain in
  match rug_result !! "error", rug_result !! "risk_score" with
  | None, Some (VFloat score) => fle score max_risk_score
  | _, _ => false
  end.

(** A rugcheck service that knows two addresses, one with a normalised
    score of 0.75 (a risk of 0.25) and one with a raw score of 83 (a risk of
    0.17000000000000004), and raises for every other address; and the text
    of exceptions left empty. *)
Definition sample_rugcheck : Rugcheck :=
  {| rugcheck_to_dict := fun address =>
       match address with
       | VStr "good" => inl {["score_normalised" := VFloat (FNum (3 # 4))]}
       | VStr "edge" => inl {["score" := VInt 83]}
       | _ => inr "token not found"
       end |}.

Definition no_exception_text : PyExcStr := {| exc_str := fun _ => "" |}.

(** A token dict is at or above a threshold: its value under the field the
    criteria maps to, read as [get_filtered_rankings] reads it, is not below
    the minimum.  A criteria without a field puts no condition. *)
Definition at_least `{PyStrConv} (token : gmap string pyval)
    (threshold : SortCriteria * pyfloat) : Prop :=
  ∀ field_name, GMGNWrapper.field_mapping threshold.1 = Some field_name →
    ∃ value, GMGNWrapper.token_value token field_name = Ok value
             ∧ flt value threshold.2 = false.

(** A wrapper fresh from its constructor. *)
Definition sample_wrapper `{World} : GMGNWrapper.t := GMGNWrapper.init 60 false.

(** A response whose rank list holds three token dicts with their volumes:
    a number, a missing value and a null. *)
Definition volume_response : pyval :=
  VDict {["data" := VDict {["rank" := VList
    [VDict (<["symbol" := VStr "BIG"]> {["volume" := VInt 2000000]});
     VDict {["symbol" := VStr "NONE"]};
     VDict (<["symbol" := VStr "NULL"]> {["volume" := VNone]})]]}]}.

(** A token with the given address and nothing else of note. *)
Definition addressed_token (address : string) : Token.t :=
  Token.mk (VInt 0) (VStr "sol") (VStr address) (VStr "")
    (FNum 0) (FNum 0) (FNum 0) (FNum 0) 0 0
    (FNum 0) (FNum 0) (FNum 0) (FNum 0) 0 0 0 0 0 (FNum 0)
    VNone VNone VNone VNone VNone VNone VNone VNone.

(** * Theorems *)

(** ** Query parameters *)

(** C7: [to_url_params] returns [orderby] and [direction] first, then the
    [filters[]] entries for not_honeypot, verified and renounced, each present
    exactly when its flag is set, in this order and with nothing else. *)
Theorem to_url_params_spec (q : QueryParameters.t) :
  QueryParameters.to_url_params q =
    [("orderby", SortCriteria_value (QueryParameters.criteria q));
     ("direction", SortDirection_value (QueryParameters.direction q))]
    ++ (if QueryParameters.include_not_honeypot q
        then [("filters[]", "not_honeypot")] else [])
    ++ (if QueryParameters.include_verified q
        then [("filters[]", "verified")] else [])
    ++ (if QueryParameters.include_renounced q
        then [("filters[]", "renounced")] else [])
  ∧ (("filters[]", "not_honeypot") ∈ QueryParameters.to_url_params q
       ↔ QueryParameters.include_not_honeypot q = true)
  ∧ (("filters[]", "verified") ∈ QueryParameters.to_url_params q
       ↔ QueryParameters.include_verified q = true)
  ∧ (("filters[]", "renounced") ∈ QueryParameters.to_url_params q
       ↔ QueryParameters.include_renounced q = true).
Proof.
  destruct q as [ch tp cr dir nh ver ren]; unfold QueryParameters.to_url_params; simpl.
  destruct nh, ver, ren; simpl;
    (split; [reflexivity |]);
    repeat split; intros Hin; try reflexivity; try discriminate;
    repeat (apply elem_of_cons in Hin as [Heq | Hin];
            [try discriminate; try (injection Heq; intros; destruct cr; discriminate);
             try (injection Heq; intros; destruct dir; discriminate) |]);
    try (apply elem_of_nil in Hin; contradiction);
    repeat first [ apply list_elem_of_here | apply list_elem_of_further ].
Qed.

(** ** Filters *)

Lemma composite_loop_fold (filters : list TokenFilter) (result : list Token.t) :
  composite_loop filters result = fold_left (λ acc f, f acc) filters result.
Proof.
  revert result; induction filters as [| f fs IH]; intros result; simpl.
  - reflexivity.
  - apply IH.
Qed.

Lemma composite_loop_app (fs gs : list TokenFilter) (result : list Token.t) :
  composite_loop (fs ++ gs) result = composite_loop gs (composite_loop fs result).
Proof.
  revert result; induction fs as [| f fs IH]; intros result; simpl; [reflexivity | apply IH].
Qed.

(** C10: [CompositeFilter] threads the token list through its filters from
    left to right, each filter receiving the previous result; with no filter
    it returns its input. *)
Theorem CompositeFilter_sequential (filters : list TokenFilter) (tokens : list Token.t) :
  CompositeFilter filters tokens = fold_left (λ result f, f result) filters tokens
  ∧ CompositeFilter [] tokens = tokens
  ∧ (∀ f, CompositeFilter (f :: filters) tokens = CompositeFilter filters (f tokens))
  ∧ (∀ f, CompositeFilter (filters ++ [f]) tokens = f (CompositeFilter filters tokens)).
Proof.
  unfold CompositeFilter. split; [apply composite_loop_fold |].
  split; [reflexivity |]. split; intros f.
  - reflexivity.
  - apply composite_loop_app.
Qed.

Lemma slice_to_prefix {A} (l : list A) (n : Z) : slice_to l n `prefix_of` l.
Proof.
  unfold slice_to. destruct (n <? 0); eexists; symmetry; apply take_drop.
Qed.

Lemma slice_to_length {A} (l : list A) (n : Z) :
  Z.of_nat (length (slice_to l n)) =
    if n <? 0 then Z.max 0 (Z.of_nat (length l) + n)
    else Z.min n (Z.of_nat (length l)).
Proof.
  unfold slice_to. destruct (Z.ltb_spec n 0); rewrite length_take; lia.
Qed.

(** C2, as it stands, fails for a negative [n]: [TopNFilter(-1)] drops the
    last of three tokens and keeps two, which is more than [-1]. *)
Lemma TopNFilter_negative_exceeds :
  let tokens := [sample_token 1 "A" 0; sample_token 2 "B" 0; sample_token 3 "C" 0] in
  TopNFilter (-1) tokens = [sample_token 1 "A" 0; sample_token 2 "B" 0]
  ∧ ¬ (Z.of_nat (length (TopNFilter (-1) tokens)) ≤ -1).
Proof.
  split; [reflexivity |]. simpl. lia.
Qed.

(** C2, amended: for every token list and every [n] the result of
    [TopNFilter(n)] is a prefix of the input; when [n] is not negative its
    length is at most [n]; when [n] is negative the last [-n] tokens are
    dropped. *)
Theorem TopNFilter_prefix_bounded (tokens : list Token.t) (n : Z) :
  TopNFilter n tokens `prefix_of` tokens
  ∧ (0 ≤ n → Z.of_nat (length (TopNFilter n tokens)) ≤ n)
  ∧ (n < 0 → Z.of_nat (length (TopNFilter n tokens))
               = Z.max 0 (Z.of_nat (length tokens) + n)).
Proof.
  unfold TopNFilter. split; [apply slice_to_prefix |].
  rewrite slice_to_length. destruct (Z.ltb_spec n 0); split; lia.
Qed.

Lemma TopNFilter_prefix_bounded_witness :
  0 ≤ 2
  ∧ Z.of_nat (length (TopNFilter 2 [sample_token 1 "A" 0; sample_token 2 "B" 0;
                                     sample_token 3 "C" 0])) ≤ 2.
Proof.
  split; [lia |].
  apply (proj1 (proj2 (TopNFilter_prefix_bounded
    [sample_token 1 "A" 0; sample_token 2 "B" 0; sample_token 3 "C" 0] 2))).
  lia.
Defined.

(** ** The retrying client *)

(** C5, as it stands, fails at status 403: the error raised for the attempt
    carries the fixed text, not the response body. *)
Lemma cloudflare_status_drops_body :
  handle_outcome (Response 403 "Forbidden" (inr "no JSON"))
    = inr (CaughtAPI 403 "Cloudflare block detected")
  ∧ handle_outcome (Response 403 "Forbidden" (inr "no JSON"))
    ≠ inr (CaughtAPI 403 "Forbidden").
Proof. split; [reflexivity | discriminate]. Qed.

(** C5, amended: a response with a status other than 200 makes the attempt
    raise a [GMGNAPIError] that carries the status code; its message is the
    response body, except for the statuses 403, 429 and 503, where it is the
    text "Cloudflare block detected". *)
Theorem non_200_raises_api_error (status_code : Z) (text : string)
    (json : pyval + string) :
  status_code ≠ 200 →
  handle_outcome (Response status_code text json) =
    inr (CaughtAPI status_code
           (if bool_decide (status_code ∈ [403; 429; 503])
            then "Cloudflare block detected" else text))
  ∧ (status_code ∉ [403; 429; 503] →
       caught_exc (CaughtAPI status_code text) = GMGNAPIError status_code text
       ∧ handle_outcome (Response status_code text json)
         = inr (CaughtAPI status_code text)).
Proof.
  intros Hne. unfold handle_outcome.
  destruct (Z.eqb_spec status_code 200) as [-> | _]; [contradiction |].
  split.
  - case_bool_decide; reflexivity.
  - intros Hnot. split; [reflexivity |].
    rewrite bool_decide_eq_false_2 by exact Hnot. reflexivity.
Qed.

Lemma non_200_raises_api_error_witness :
  500 ≠ 200
  ∧ handle_outcome (Response 500 "Internal Server Error" (inr "no JSON"))
    = inr (CaughtAPI 500 "Internal Server Error").
Proof.
  assert (Hne : 500 ≠ 200) by lia.
  split; [exact Hne |].
  exact (proj1 (non_200_raises_api_error 500 "Internal Server Error"
                  (inr "no JSON") Hne)).
Defined.

Section Retry.
Context `{World}.
Variables (url : string) (params : list (string * string)).

Lemma refresh_session_fields (self : GMGNClient) :
  config (refresh_session self) = config self
  ∧ sessions_made (refresh_session self) = S (sessions_made self)
  ∧ requests_sent (refresh_session self) = requests_sent self.
Proof. repeat split. Qed.

Lemma retry_loop_cons (attempt : Z) (rest : list Z) (self : GMGNClient)
    (last : option caught) :
  retry_loop url params (attempt :: rest) self last =
    match attempt_of url params self (requests_sent self) with
    | inl document => (request_counted self, inl document)
    | inr e =>
        retry_loop url params rest
          (if attempt <? max_retries (config self) - 1
           then refresh_session (request_counted self)
           else request_counted self)
          (Some e)
    end.
Proof. reflexivity. Qed.

(** The loop over the attempts [k, k+1, ..., k+m-1] when [k+m] is the retry
    count: [j] requests are sent, and a session is drawn after each of them
    but the last one sent. *)
Lemma retry_loop_spec (m : nat) : ∀ (k : nat) (self : GMGNClient) (last : option caught),
  (k + m)%nat = Z.to_nat (max_retries (config self)) →
  let res := retry_loop url params (Z.of_nat <$> seq k m) self last in
  config res.1 = config self
  ∧ ∃ j : nat,
      requests_sent res.1 = (requests_sent self + j)%nat
      ∧ (j ≤ m)%nat
      ∧ sessions_made res.1 = (sessions_made self + (j - 1))%nat
      ∧ match res.2 with
        | inl _ => (1 ≤ j)%nat
        | inr l =>
            j = m
            ∧ match m with
              | O => l = last ∧ res.1 = self
              | S _ => ∃ x, l = Some x
                            ∧ attempt_of url params res.1 (requests_sent res.1 - 1) = inr x
              end
        end.
Proof.
  induction m as [| m IH]; intros k self last Hkm res.
  - subst res; simpl. split; [reflexivity |]. exists O. repeat split; lia.
  - subst res. change (Z.of_nat <$> seq k (S m))
      with (Z.of_nat k :: (Z.of_nat <$> seq (S k) m)).
    rewrite retry_loop_cons.
    destruct (attempt_of url params self (requests_sent self)) as [document | e] eqn:Hout.
    + simpl. split; [reflexivity |]. exists 1%nat. repeat split; lia.
    + set (self2 := if Z.of_nat k <? max_retries (config self) - 1
                    then refresh_session (request_counted self)
                    else request_counted self).
      assert (Hcfg : config self2 = config self).
      { unfold self2. destruct (_ <? _); reflexivity. }
      assert (Hreq : requests_sent self2 = S (requests_sent self)).
      { unfold self2. destruct (_ <? _); reflexivity. }
      assert (Hses : sessions_made self2 =
                     (sessions_made self + (if decide (m = O) then 0 else 1))%nat).
      { unfold self2.
        destruct (Z.ltb_spec (Z.of_nat k) (max_retries (config self) - 1));
          destruct (decide (m = O)); simpl; lia. }
      assert (Hid : m = O → self2 = request_counted self).
      { intros ->. unfold self2.
        destruct (Z.ltb_spec (Z.of_nat k) (max_retries (config self) - 1)); [lia | reflexivity]. }
      specialize (IH (S k) self2 (Some e)).
      rewrite Hcfg in IH.
      assert (Hk : (S k + m)%nat = Z.to_nat (max_retries (config self))) by lia.
      specialize (IH Hk). simpl in IH.
      destruct (retry_loop url params (Z.of_nat <$> seq (S k) m) self2 (Some e))
        as [self' r] eqn:Hloop; simpl in *.
      destruct IH as [Hc (j & Hj1 & Hj2 & Hj3 & Hj4)].
      split; [exact Hc |]. exists (S j).
      split; [lia |]. split; [lia |].
      destruct r as [document | l].
      * split; [| lia]. destruct (decide (m = O)); lia.
      * destruct Hj4 as [-> Hlast]. split; [destruct (decide (m = O)); lia |].
        split; [reflexivity |].
        destruct m as [| m'].
        -- destruct Hlast as [-> ->]. exists e. split; [reflexivity |].
           rewrite (Hid eq_refl). simpl.
           rewrite Nat.sub_0_r. exact Hout.
        -- exact Hlast.
Qed.

End Retry.



(** ** The convenience methods *)

(** C8: for every chain and time period, [get_top_gainers] raises the
    [NameError] for [limit]; the API object is left as it was, so no request
    has been sent and no token list is returned. *)
Theorem get_top_gainers_name_error `{PyStrConv} `{World} (self : GMGNTokenAPI)
    (chain : Chain) (time_period : TimePeriod) :
  ("limit" ∉ get_top_gainers_locals)
  ∧ get_top_gainers self chain time_period = (self, Raise (NameError "limit"))
  ∧ requests_sent (client (get_top_gainers self chain time_period).1)
    = requests_sent (client self)
  ∧ ¬ is_Ok (get_top_gainers self chain time_period).2.
Proof.
  assert (Hload : load_global "limit" = Raise (NameError "limit")) by (vm_compute; reflexivity).
  assert (Hrun : get_top_gainers self chain time_period = (self, Raise (NameError "limit"))).
  { unfold get_top_gainers. rewrite Hload. reflexivity. }
  split; [| rewrite Hrun; repeat split].
  - unfold get_top_gainers_locals. intros Hin.
    repeat (apply elem_of_cons in Hin as [Heq | Hin]; [discriminate |]).
    apply elem_of_nil in Hin. exact Hin.
  - intros [tokens Htokens]. discriminate.
Qed.

(** ** Parsing *)

Section Parsing.
Context `{PyStrConv}.

Lemma parse_items_spec (rank_data : list pyval) : ∀ tokens,
  parse_items rank_data tokens = tokens ++ omap item_token rank_data.
Proof.
  induction rank_data as [| item rest IH]; intros tokens; simpl.
  - rewrite app_nil_r. reflexivity.
  - destruct item as [| b | z | f | s | l | d]; simpl; try apply IH.
    destruct (Token.from_dict d) as [token | e]; simpl.
    + rewrite IH, <- app_assoc. reflexivity.
    + apply IH.
Qed.

Lemma malformed_no_token (item : pyval) : malformed item → item_token item = None.
Proof.
  destruct item as [| b | z | f | s | l | d]; simpl; try reflexivity.
  intros [e ->]. reflexivity.
Qed.

(** C3: when the response's [data] is a dict holding a [rank] list,
    [parse_response] returns: the tokens of the well-formed items in their
    order.  A malformed item contributes nothing and does not disturb the
    items before or after it, and every well-formed item is in the result. *)
Theorem parse_response_skips_malformed (r d : gmap string pyval)
    (rank_data : list pyval) :
  r !! "data" = Some (VDict d) →
  d !! "rank" = Some (VList rank_data) →
  parse_response (VDict r) = Ok (omap item_token rank_data)
  ∧ (∀ before bad after,
       rank_data = before ++ bad :: after → malformed bad →
       parse_response (VDict r)
         = Ok (omap item_token before ++ omap item_token after))
  ∧ (∀ (i : nat) item_dict token,
       rank_data !! i = Some (VDict item_dict) →
       Token.from_dict item_dict = Ok token →
       token ∈ omap item_token rank_data).
Proof.
  intros Hdata Hrank.
  assert (Hparse : parse_response (VDict r) = Ok (omap item_token rank_data)).
  { unfold parse_response. rewrite Hdata, Hrank, parse_items_spec. reflexivity. }
  split; [exact Hparse |]. split.
  - intros before bad after -> Hbad. rewrite Hparse. f_equal.
    rewrite omap_app. simpl. rewrite (malformed_no_token bad Hbad). reflexivity.
  - intros i item_dict token Hi Hok.
    apply list_elem_of_omap. exists (VDict item_dict). split.
    + apply list_elem_of_lookup. exists i. exact Hi.
    + simpl. rewrite Hok. reflexivity.
Qed.

End Parsing.

(** ** Token construction *)

Section FromDict.
Context `{PyStrConv}.

Lemma py_float_zero : py_float (VInt 0) = Ok (FNum 0).
Proof. vm_compute. reflexivity. Qed.

Lemma py_float_get (d : gmap string pyval) (key : string) (x : pyfloat) :
  py_float (dict_get d key (VInt 0)) = Ok x → filled_float d key x.
Proof.
  unfold filled_float, dict_get. destruct (d !! key); [tauto |].
  rewrite py_float_zero. intros [= <-]. reflexivity.
Qed.

Lemma py_int_get (d : gmap string pyval) (key : string) (n : Z) :
  py_int (dict_get d key (VInt 0)) = Ok n → filled_int d key n.
Proof.
  unfold filled_int, dict_get. destruct (d !! key); [tauto |].
  simpl. intros [= <-]. reflexivity.
Qed.

Lemma dict_get_raw (d : gmap string pyval) (key : string) (default : pyval) :
  filled_raw d key default (dict_get d key default).
Proof. unfold filled_raw, dict_get. destruct (d !! key); reflexivity. Qed.

Lemma py_float_get_ok (d : gmap string pyval) (key : string) :
  (∀ v, d !! key = Some v → is_Ok (py_float v)) →
  is_Ok (py_float (dict_get d key (VInt 0))).
Proof.
  intros Hv. unfold dict_get. destruct (d !! key) as [v |].
  - apply Hv. reflexivity.
  - rewrite py_float_zero. eexists; reflexivity.
Qed.

Lemma py_int_get_ok (d : gmap string pyval) (key : string) :
  (∀ v, d !! key = Some v → is_Ok (py_int v)) →
  is_Ok (py_int (dict_get d key (VInt 0))).
Proof.
  intros Hv. unfold dict_get. destruct (d !! key) as [v |].
  - apply Hv. reflexivity.
  - eexists; reflexivity.
Qed.

Lemma get_ok_present {A} (conv : pyval → result A) (d : gmap string pyval)
    (key : string) (x : A) :
  conv (dict_get d key (VInt 0)) = Ok x →
  ∀ v, d !! key = Some v → is_Ok (conv v).
Proof.
  unfold dict_get. intros Hx v Hv. rewrite Hv in Hx. exists x. exact Hx.
Qed.

#[local] Ltac key_in_list :=
  repeat first [ apply list_elem_of_here | apply list_elem_of_further ].

#[local] Ltac step_conversions Hrun :=
  repeat (match type of Hrun with
          | context [py_float (dict_get ?d ?k ?v)] =>
              destruct (py_float (dict_get d k v)) eqn:?
          | context [py_int (dict_get ?d ?k ?v)] =>
              destruct (py_int (dict_get d k v)) eqn:?
          end; simpl in Hrun; try discriminate Hrun).

Lemma from_dict_ok_coercible (d : gmap string pyval) (token : Token.t) :
  Token.from_dict d = Ok token → coercible d.
Proof.
  intros Hrun. unfold Token.from_dict in Hrun. step_conversions Hrun.
  split; unfold float_keys, int_keys;
    repeat (apply Forall_cons; split;
            [eapply get_ok_present; eassumption |]);
    apply Forall_nil; exact I.
Qed.

Lemma coercible_from_dict_ok (d : gmap string pyval) :
  coercible d → is_Ok (Token.from_dict d).
Proof.
  intros [Hfloat Hint]. rewrite Forall_forall in Hfloat, Hint.
  unfold Token.from_dict.
  repeat match goal with
         | |- context [py_float (dict_get d ?k (VInt 0))] =>
             let Hx := fresh "Hx" in
             destruct (py_float_get_ok d k) as [? Hx];
             [apply Hfloat; unfold float_keys; key_in_list | rewrite Hx; simpl]
         | |- context [py_int (dict_get d ?k (VInt 0))] =>
             let Hx := fresh "Hx" in
             destruct (py_int_get_ok d k) as [? Hx];
             [apply Hint; unfold int_keys; key_in_list | rewrite Hx; simpl]
         end.
  eexists; reflexivity.
Qed.

(** C6, as it stands, fails on a mapping whose [price] is [None]:
    [Token.from_dict] raises [TypeError] and returns no token. *)
Lemma from_dict_raises_on_null_price :
  @Token.from_dict no_numeric_strings {["price" := VNone]} = Raise TypeError
  ∧ ¬ ∃ token, @Token.from_dict no_numeric_strings {["price" := VNone]} = Ok token.
Proof.
  assert (Hrun : @Token.from_dict no_numeric_strings {["price" := VNone]} = Raise TypeError)
    by (vm_compute; reflexivity).
  split; [exact Hrun |]. intros [token Htoken]. rewrite Hrun in Htoken. discriminate.
Qed.

(** C6, amended: [Token.from_dict] returns a token exactly when every
    numeric key that is present holds a value that [float()] (price, volume,
    liquidity, market_cap, the price changes, bluechip_owner_percentage) or
    [int()] (holder_count, swaps, smart_buy_24h, smart_sell_24h, is_honeypot,
    is_open_source, renounced) accepts, and raises otherwise.  In the token
    returned, a field whose key is absent has its default ([0] for id and the
    numeric fields, the empty string for chain, address and symbol, [None]
    for logo, buy_tax, sell_tax, total_supply, buys, sells, sniper_count and
    lock_info, which is read under the key lockInfo), and a field whose key
    is present has the mapping's value, converted for the numeric keys and
    as it is for the others. *)
Theorem from_dict_default_filled (d : gmap string pyval) :
  (coercible d ↔ is_Ok (Token.from_dict d))
  ∧ ∀ token, Token.from_dict d = Ok token →
      filled_raw d "id" (VInt 0) (Token.id token)
      ∧ filled_raw d "chain" (VStr "") (Token.chain token)
      ∧ filled_raw d "address" (VStr "") (Token.address token)
      ∧ filled_raw d "symbol" (VStr "") (Token.symbol token)
      ∧ filled_float d "price" (Token.price token)
      ∧ filled_float d "volume" (Token.volume token)
      ∧ filled_float d "liquidity" (Token.liquidity token)
      ∧ filled_float d "market_cap" (Token.market_cap token)
      ∧ filled_int d "holder_count" (Token.holder_count token)
      ∧ filled_int d "swaps" (Token.swaps token)
      ∧ filled_float d "price_change_percent" (Token.price_change_percent token)
      ∧ filled_float d "price_change_percent1m" (Token.price_change_percent1m token)
      ∧ filled_float d "price_change_percent5m" (Token.price_change_percent5m token)
      ∧ filled_float d "price_change_percent1h" (Token.price_change_percent1h token)
      ∧ filled_int d "smart_buy_24h" (Token.smart_buy_24h token)
      ∧ filled_int d "smart_sell_24h" (Token.smart_sell_24h token)
      ∧ filled_int d "is_honeypot" (Token.is_honeypot token)
      ∧ filled_int d "is_open_source" (Token.is_open_source token)
      ∧ filled_int d "renounced" (Token.renounced token)
      ∧ filled_float d "bluechip_owner_percentage" (Token.bluechip_owner_percentage token)
      ∧ filled_raw d "logo" VNone (Token.logo token)
      ∧ filled_raw d "buy_tax" VNone (Token.buy_tax token)
      ∧ filled_raw d "sell_tax" VNone (Token.sell_tax token)
      ∧ filled_raw d "total_supply" VNone (Token.total_supply token)
      ∧ filled_raw d "buys" VNone (Token.buys token)
      ∧ filled_raw d "sells" VNone (Token.sells token)
      ∧ filled_raw d "sniper_count" VNone (Token.sniper_count token)
      ∧ filled_raw d "lockInfo" VNone (Token.lock_info token).
Proof.
  split.
  - split; [apply coercible_from_dict_ok |].
    intros [token Htoken]. exact (from_dict_ok_coercible d token Htoken).
  - intros token Hrun. unfold Token.from_dict in Hrun. step_conversions Hrun.
    injection Hrun as <-. simpl.
    repeat split;
      first [ apply dict_get_raw
            | apply py_float_get; assumption
            | apply py_int_get; assumption ].
Qed.

End FromDict.

(** ** Closed instances of the parsing and construction theorems *)

Lemma parse_response_skips_malformed_witness :
  sample_response !! "data" = Some (VDict sample_data)
  ∧ sample_data !! "rank" = Some (VList sample_rank)
  ∧ @parse_response no_numeric_strings (VDict sample_response)
    = Ok (omap (@item_token no_numeric_strings) sample_rank).
Proof.
  split; [reflexivity |]. split; [reflexivity |].
  exact (proj1 (@parse_response_skips_malformed no_numeric_strings
                  sample_response sample_data sample_rank eq_refl eq_refl)).
Defined.

(** The tokens the sample response parses into: the junk string and the item
    with the null price are gone, the item after them is kept. *)
Example parse_sample_response :
  @parse_response no_numeric_strings (VDict sample_response)
  = Ok [sample_token 1 "AAA" 0; sample_token 2 "BBB" 5].
Proof. vm_compute. reflexivity. Qed.

Lemma from_dict_default_filled_witness :
  @Token.from_dict no_numeric_strings (sample_item 2 "BBB" 5)
    = Ok (sample_token 2 "BBB" 5)
  ∧ @filled_float no_numeric_strings (sample_item 2 "BBB" 5) "price" (FNum 0)
  ∧ filled_raw (sample_item 2 "BBB" 5) "symbol" (VStr "") (VStr "BBB")
  ∧ filled_raw (sample_item 2 "BBB" 5) "lockInfo" VNone VNone.
Proof.
  assert (Hrun : @Token.from_dict no_numeric_strings (sample_item 2 "BBB" 5)
                 = Ok (sample_token 2 "BBB" 5)) by (vm_compute; reflexivity).
  split; [exact Hrun |].
  pose proof (proj2 (@from_dict_default_filled no_numeric_strings
                       (sample_item 2 "BBB" 5)) _ Hrun) as Hfields.
  split; [exact (proj1 (proj2 (proj2 (proj2 (proj2 Hfields))))) |].
  split; [exact (proj1 (proj2 (proj2 (proj2 Hfields)))) |].
  exact (proj2 (proj2 (proj2 (proj2 (proj2 (proj2 (proj2 (proj2 (proj2 (proj2
        (proj2 (proj2 (proj2 (proj2 (proj2 (proj2 (proj2 (proj2 (proj2 (proj2
        (proj2 (proj2 (proj2 (proj2 (proj2 (proj2 (proj2 Hfields))))))))))))))))))))))))))).
Defined.

(** ** The criteria filter *)

Lemma Qlt_bool_iff (p q : Q) : Qlt_bool p q = true ↔ (p < q)%Q.
Proof.
  unfold Qlt_bool. rewrite negb_true_iff. split.
  - intros Hle. apply Qnot_le_lt. intros Hqp.
    apply Qle_bool_iff in Hqp. congruence.
  - intros Hlt. destruct (Qle_bool q p) eqn:Hle; [| reflexivity].
    apply Qle_bool_iff in Hle. exfalso. exact (Qlt_not_le _ _ Hlt Hle).
Qed.

Lemma flt_trans (a b c : pyfloat) :
  flt a b = true → flt b c = true → flt a c = true.
Proof.
  destruct a as [p | | |], b as [q | | |], c as [r | | |]; simpl;
    try discriminate; try reflexivity.
  rewrite !Qlt_bool_iff. apply Qlt_trans.
Qed.

Lemma below_tightened (value : pyfloat) (old new : option pyfloat) :
  old = new ∨ raised old new →
  old = new ∨ FilterCriteria.threshold_set new = true →
  FilterCriteria.below value new = false →
  FilterCriteria.below value old = false.
Proof.
  intros [-> | Hraised] Hset Hnew; [exact Hnew |].
  destruct Hset as [-> | Hset]; [exact Hnew |].
  destruct old as [a |], new as [b |]; simpl in *;
    try reflexivity; try contradiction.
  rewrite Hset in Hnew; simpl in Hnew.
  destruct (flt value a) eqn:Hva; [| apply andb_false_r].
  rewrite (flt_trans _ _ _ Hva Hraised) in Hnew. discriminate.
Qed.

Lemma above_tightened (value : pyfloat) (old new : option pyfloat) :
  old = new ∨ lowered old new →
  old = new ∨ FilterCriteria.threshold_set new = true →
  FilterCriteria.above value new = false →
  FilterCriteria.above value old = false.
Proof.
  intros [-> | Hlowered] Hset Hnew; [exact Hnew |].
  destruct Hset as [-> | Hset]; [exact Hnew |].
  destruct old as [a |], new as [b |]; simpl in *;
    try reflexivity; try contradiction.
  rewrite Hset in Hnew; simpl in Hnew. unfold fgt in *.
  destruct (flt a value) eqn:Hav; [| apply andb_false_r].
  rewrite (flt_trans _ _ _ Hlowered Hav) in Hnew. discriminate.
Qed.

Lemma int_below_tightened (value : Z) (old new : option Z) :
  old = new ∨ raised_int old new →
  old = new ∨ FilterCriteria.int_threshold_set new = true →
  FilterCriteria.int_below value new = false →
  FilterCriteria.int_below value old = false.
Proof.
  intros [-> | Hraised] Hset Hnew; [exact Hnew |].
  destruct Hset as [-> | Hset]; [exact Hnew |].
  destruct old as [a |], new as [b |]; simpl in *;
    try reflexivity; try contradiction.
  rewrite Hset in Hnew; simpl in Hnew.
  apply Z.ltb_ge in Hnew. apply andb_false_iff. right. apply Z.ltb_ge. lia.
Qed.

(** [matches] is the conjunction of its tests. *)
Lemma matches_true_iff (c : FilterCriteria.t) (token : Token.t) :
  FilterCriteria.matches c token = true ↔
    (FilterCriteria.exclude_honeypots c && negb (Token.is_honeypot token =? 0) = false
     ∧ FilterCriteria.below (Token.volume token) (FilterCriteria.min_volume c) = false
     ∧ FilterCriteria.above (Token.volume token) (FilterCriteria.max_volume c) = false
     ∧ FilterCriteria.below (Token.market_cap token) (FilterCriteria.min_market_cap c) = false
     ∧ FilterCriteria.above (Token.market_cap token) (FilterCriteria.max_market_cap c) = false
     ∧ FilterCriteria.below (Token.liquidity token) (FilterCriteria.min_liquidity c) = false
     ∧ FilterCriteria.above (Token.liquidity token) (FilterCriteria.max_liquidity c) = false
     ∧ FilterCriteria.int_below (Token.holder_count token) (FilterCriteria.min_holder_count c) = false
     ∧ FilterCriteria.below (Token.price_change_percent token) (FilterCriteria.min_price_change c) = false
     ∧ FilterCriteria.above (Token.price_change_percent token) (FilterCriteria.max_price_change c) = false).
Proof.
  unfold FilterCriteria.matches.
  repeat match goal with
         | |- context [if ?b then false else _] => destruct b
         end;
    try (destruct (FilterCriteria.threshold_set _));
    split; intros Hm; try discriminate; try reflexivity;
    try (repeat split; reflexivity);
    repeat match goal with
           | Hc : _ ∧ _ |- _ => destruct Hc
           end; discriminate.
Qed.

(** Monotonicity where it holds: a token that passes the tightened criteria
    passes the original ones, provided no threshold was changed to zero. *)
Lemma matches_tightened (c c' : FilterCriteria.t) (token : Token.t) :
  tightened c c' → changes_nonzero c c' →
  FilterCriteria.matches c' token = true →
  FilterCriteria.matches c token = true.
Proof.
  intros (T1 & T2 & T3 & T4 & T5 & T6 & T7 & T8 & T9 & _ & Th)
         (N1 & N2 & N3 & N4 & N5 & N6 & N7 & N8 & N9).
  rewrite !matches_true_iff.
  intros (M0 & M1 & M2 & M3 & M4 & M5 & M6 & M7 & M8 & M9).
  repeat split;
    eauto using below_tightened, above_tightened, int_below_tightened.
  destruct (FilterCriteria.exclude_honeypots c); [| reflexivity].
  rewrite (Th eq_refl) in M0. exact M0.
Qed.

Lemma CriteriaFilter_tightened (c c' : FilterCriteria.t) (tokens : list Token.t) :
  tightened c c' → changes_nonzero c c' →
  ∀ token, token ∈ CriteriaFilter c' tokens → token ∈ CriteriaFilter c tokens.
Proof.
  intros Ht Hn token. unfold CriteriaFilter.
  rewrite !list_elem_of_In, !filter_In. intros [Hin Hm].
  split; [exact Hin |]. exact (matches_tightened c c' token Ht Hn Hm).
Qed.

(** C1 at the input where the code departs from it: with [min_price_change]
    raised from [-5] to [0], the other fields equal, a token that lost 10%
    is rejected by the looser criteria and kept by the stricter ones, because
    a threshold of zero is not tested. *)
Theorem zero_threshold_breaks_monotonicity :
  let c := criteria_min_change (-5) in
  let c' := criteria_min_change 0 in
  let token := sample_token 1 "AAA" (-10) in
  tightened c c'
  ∧ raised (FilterCriteria.min_price_change c) (FilterCriteria.min_price_change c')
  ∧ FilterCriteria.matches c token = false
  ∧ FilterCriteria.matches c' token = true
  ∧ CriteriaFilter c [token] = []
  ∧ CriteriaFilter c' [token] = [token]
  ∧ ¬ (∀ t, t ∈ CriteriaFilter c' [token] → t ∈ CriteriaFilter c [token]).
Proof.
  simpl. split.
  { unfold tightened; simpl. repeat split; try (left; reflexivity).
    right. reflexivity. }
  repeat split.
  intros Hall. specialize (Hall (sample_token 1 "AAA" (-10))).
  assert (Hin : sample_token 1 "AAA" (-10) ∈ [sample_token 1 "AAA" (-10)])
    by apply list_elem_of_here.
  apply Hall in Hin. apply elem_of_nil in Hin. exact Hin.
Qed.

(** ** The risk score *)

Section RiskScore.
Context `{PyStrConv}.

Lemma Qle_bool_total (p q : Q) : Qle_bool p q = false → Qle_bool q p = true.
Proof.
  intros Hpq. apply Qle_bool_iff. apply Qlt_le_weak, Qnot_le_lt.
  intros Hle. apply Qle_bool_iff in Hle. congruence.
Qed.

(** [max(0.0, min(1.0, x))] lies in the unit interval for every float [x],
    NaN and the infinities included. *)
Lemma clamp_in_unit_interval (x : pyfloat) :
  in_unit_interval (py_max (FNum 0) (py_min (FNum 1) x)).
Proof.
  unfold in_unit_interval, py_max, py_min, fgt.
  destruct x as [q | | |]; simpl; try (split; reflexivity).
  unfold Qlt_bool.
  destruct (Qle_bool 1 q) eqn:H1; simpl; [split; reflexivity |].
  destruct (Qle_bool q 0) eqn:H0; simpl; [split; reflexivity |].
  split; apply Qle_bool_total; assumption.
Qed.

Lemma round_half_even_nonneg (N D : Z) : 0 ≤ N → 0 < D → 0 ≤ round_half_even N D.
Proof.
  intros HN HD. unfold round_half_even.
  assert (Hq : 0 ≤ N / D) by (apply Z.div_pos; lia).
  destruct (2 * (N mod D) ?= D); [destruct (Z.even (N / D)) | |]; lia.
Qed.

Lemma pow2_nonneg (e : Z) : (0 <= pow2 e)%Q.
Proof.
  unfold pow2. destruct (0 <=? e).
  - change 0%Q with (inject_Z 0). rewrite <- Zle_Qle. apply Z.pow_nonneg. lia.
  - unfold Qle; simpl. lia.
Qed.

Lemma round_pos_nonneg (n d : positive) : fle (FNum 0) (round_pos n d) = true.
Proof.
  unfold round_pos.
  set (e := Z.max (floor_log2 n d - 52) (-1074)).
  set (m := if 0 <=? e then round_half_even (Z.pos n) (Z.pos d * 2 ^ e)
            else round_half_even (Z.pos n * 2 ^ (- e)) (Z.pos d)).
  assert (Hm : 0 ≤ m).
  { unfold m. destruct (Z.leb_spec 0 e).
    - apply round_half_even_nonneg; [lia |].
      apply Z.mul_pos_pos; [lia | apply Z.pow_pos_nonneg; lia].
    - apply round_half_even_nonneg; [| lia].
      apply Z.mul_nonneg_nonneg; [lia | apply Z.pow_nonneg; lia]. }
  destruct ((0 <=? e) && (2 ^ 1024 <=? m * 2 ^ e)); [reflexivity |].
  simpl. apply Qle_bool_iff. rewrite Qred_correct.
  apply Qmult_le_0_compat; [| apply pow2_nonneg].
  change 0%Q with (inject_Z 0). rewrite <- Zle_Qle. exact Hm.
Qed.

(** Rounding keeps a number that is not negative from becoming negative. *)
Lemma round_double_nonneg (q : Q) :
  (0 <= q)%Q → fle (FNum 0) (round_double q) = true.
Proof.
  intros Hq. unfold round_double. destruct q as [num den]; simpl.
  destruct num as [| n | n].
  - reflexivity.
  - apply round_pos_nonneg.
  - exfalso. unfold Qle in Hq; simpl in Hq. lia.
Qed.

Lemma flt_fle (a b : pyfloat) : flt a b = true → fle a b = true.
Proof.
  destruct a as [p | | |], b as [q | | |]; simpl; try discriminate; try reflexivity.
  rewrite Qlt_bool_iff, Qle_bool_iff. apply Qlt_le_weak.
Qed.

(** [min(1.0, risk_count / 10.0)] lies in the unit interval for every list
    length. *)
Lemma risk_count_in_unit_interval (n : nat) :
  in_unit_interval (py_min (FNum 1) (fdiv_const (float_of_Z (Z.of_nat n)) 10)).
Proof.
  unfold fdiv_const, float_of_Z.
  assert (Hpos : fle (FNum 0) (round_double (inject_Z (Z.of_nat n) / 10)) = true).
  { apply round_double_nonneg. apply Qle_shift_div_l; [reflexivity |].
    rewrite Qmult_0_l. change 0%Q with (inject_Z 0). rewrite <- Zle_Qle. lia. }
  unfold in_unit_interval, py_min.
  destruct (flt (round_double (inject_Z (Z.of_nat n) / 10)) (FNum 1)) eqn:Hlt.
  - split; [exact Hpos | apply flt_fle, Hlt].
  - split; reflexivity.
Qed.

Lemma py_float_raises (v : pyval) (e : pyexc) :
  py_float v = Raise e → e = TypeError ∨ e = ValueError ∨ e = OverflowError.
Proof.
  destruct v as [| b | z | f | s | l | d]; simpl; try discriminate;
    try (intros [= <-]; tauto).
  - destruct (Z.abs z <? float_int_bound); [discriminate |]. intros [= <-]; tauto.
  - destruct (float_of_str s); [discriminate |]. intros [= <-]; tauto.
Qed.

(** Whenever [_extract_risk_score] returns, the score lies in the unit
    interval. *)
Lemma extract_risk_score_in_range (d : gmap string pyval) (score : pyfloat) :
  _extract_risk_score d = Ok score → in_unit_interval score.
Proof.
  unfold _extract_risk_score.
  assert (Hhalf : in_unit_interval (FNum (1 # 2))) by (split; reflexivity).
  destruct (extract_risk_score_body d) as [x | e] eqn:Hbody.
  - intros [= <-]. unfold extract_risk_score_body in Hbody.
    repeat match type of Hbody with
           | context [match d !! ?k with _ => _ end] => destruct (d !! k) as [[]|]
           | context [py_float ?v] => destruct (py_float v); simpl in Hbody
           | context [if ?b then _ else _] => destruct b
           end;
      simpl in Hbody; try discriminate Hbody;
      injection Hbody as <-;
      try apply clamp_in_unit_interval;
      try apply risk_count_in_unit_interval;
      try exact Hhalf; split; reflexivity.
  - destruct (is_value_or_type_error e); [| discriminate].
    intros [= <-]. exact Hhalf.
Qed.

(** The only exception that leaves [_extract_risk_score] is the
    [OverflowError] of [float()]. *)
Lemma extract_risk_score_raises (d : gmap string pyval) (e : pyexc) :
  _extract_risk_score d = Raise e → e = OverflowError.
Proof.
  unfold _extract_risk_score.
  destruct (extract_risk_score_body d) as [x | e'] eqn:Hbody; [discriminate |].
  destruct (is_value_or_type_error e') eqn:Hkind; [discriminate |].
  intros [= <-]. unfold extract_risk_score_body in Hbody.
  repeat match type of Hbody with
         | context [match d !! ?k with _ => _ end] => destruct (d !! k) as [[]|]
         | context [py_float ?v] => destruct (py_float v) eqn:?; simpl in Hbody
         | context [if ?b then _ else _] => destruct b
         end;
    simpl in Hbody; try discriminate Hbody;
    injection Hbody as <-;
    match goal with
    | Hf : py_float _ = Raise _ |- _ =>
        destruct (py_float_raises _ _ Hf) as [-> | [-> | ->]];
        (discriminate Hkind || reflexivity)
    end.
Qed.

(** C9 at the input where the code departs from it: a [score_normalised]
    that is an integer too large for a float makes [float()] raise
    [OverflowError], which the [except (ValueError, TypeError)] clause lets
    through, so no score is returned. *)
Theorem extract_risk_score_overflow :
  _extract_risk_score {["score_normalised" := VInt (2 ^ 1024)]}
    = Raise OverflowError
  ∧ _extract_risk_score {["score" := VInt (2 ^ 1024)]} = Raise OverflowError
  ∧ ¬ ∃ score, _extract_risk_score {["score_normalised" := VInt (2 ^ 1024)]}
               = Ok score.
Proof.
  assert (H1 : _extract_risk_score {["score_normalised" := VInt (2 ^ 1024)]}
               = Raise OverflowError) by (vm_compute; reflexivity).
  split; [exact H1 |]. split; [vm_compute; reflexivity |].
  intros [score Hscore]. rewrite H1 in Hscore. discriminate.
Qed.

End RiskScore.

(** ** The definitions at work on small inputs *)

Example to_url_params_defaults :
  QueryParameters.to_url_params (QueryParameters.make SOLANA ONE_HOUR VOLUME)
  = [("orderby", "volume"); ("direction", "desc"); ("filters[]", "not_honeypot")].
Proof. reflexivity. Qed.

Example top_two_of_three :
  TopNFilter 2 [sample_token 1 "A" 0; sample_token 2 "B" 0; sample_token 3 "C" 0]
  = [sample_token 1 "A" 0; sample_token 2 "B" 0].
Proof. reflexivity. Qed.

Example composite_criteria_then_top :
  CompositeFilter [CriteriaFilter (criteria_min_change 1); TopNFilter 1]
    [sample_token 1 "A" 0; sample_token 2 "B" 4; sample_token 3 "C" 7]
  = [sample_token 2 "B" 4].
Proof. reflexivity. Qed.

(** A block on the first request, a document on the second: two requests,
    one session drawn in between. *)
Example make_request_second_attempt :
  let world := scripted_world [Response 429 "slow down" (inr "no JSON")]
                              (Response 200 "{}" (inl (VDict ∅))) in
  let self := @client_with_retries world 3 in
  let res := @make_request world self "https://gmgn.ai" [] in
  res.2 = Ok (VDict ∅)
  ∧ requests_sent res.1 = 2%nat
  ∧ sessions_made res.1 = S (sessions_made self).
Proof. vm_compute. repeat split. Qed.

(** Three blocks in a row: three requests, two sessions drawn in between, and
    the last error raised. *)
Example make_request_all_blocked :
  let world := constant_world (Response 503 "unavailable" (inr "no JSON")) in
  let self := @client_with_retries world 3 in
  let res := @make_request world self "https://gmgn.ai" [] in
  res.2 = Raise (GMGNAPIError 503 "Cloudflare block detected")
  ∧ requests_sent res.1 = 3%nat
  ∧ sessions_made res.1 = S (S (sessions_made self)).
Proof. vm_compute. repeat split. Qed.

Example get_top_gainers_sends_nothing :
  let world := constant_world (Response 200 "{}" (inl (VDict sample_response))) in
  let api := {| api_config := create_default;
                client := @client_with_retries world 3 |} in
  @get_top_gainers no_numeric_strings world api SOLANA ONE_HOUR
    = (api, Raise (NameError "limit"))
  ∧ (@get_top_volume_tokens no_numeric_strings world api SOLANA
       TWENTY_FOUR_HOURS 1).2 = Ok [sample_token 1 "AAA" 0].
Proof. vm_compute. repeat split. Qed.

Example risk_score_from_normalised :
  @_extract_risk_score no_numeric_strings
    {["score_normalised" := VFloat (FNum (3 # 4))]} = Ok (FNum (1 # 4)).
Proof. vm_compute. reflexivity. Qed.

(** [1.0 - 83 / 100.0] is [0.17000000000000004], the double
    [1531223873305969 / 2^53], and [3 / 10.0] is the double nearest to
    three tenths. *)
Example risk_score_from_raw_score :
  @_extract_risk_score no_numeric_strings {["score" := VInt 83]}
  = Ok (FNum (1531223873305969 # 9007199254740992)).
Proof. vm_compute. reflexivity. Qed.

Example risk_score_from_risks :
  @_extract_risk_score no_numeric_strings
    {["risks" := VList [VStr "mint"; VStr "freeze"; VStr "lp"]]}
  = Ok (FNum (5404319552844595 # 18014398509481984)).
Proof. vm_compute. reflexivity. Qed.

(** An [int] of more than 53 bits loses its low bits on the way into a
    token: [2^53 + 1] is stored as [2^53]. *)
Example from_dict_rounds_large_int :
  Token.volume <$> @Token.from_dict no_numeric_strings
                     {["volume" := VInt (2 ^ 53 + 1)]}
  = Ok (FNum (inject_Z (2 ^ 53))).
Proof. vm_compute. reflexivity. Qed.

Example risk_score_on_type_error :
  @_extract_risk_score no_numeric_strings
    {["score" := VList []]} = Ok (FNum (1 # 2)).
Proof. vm_compute. reflexivity. Qed.

(** * Further properties *)

(** ** Parsing and token construction *)

Section MoreParsing.
Context `{PyStrConv}.

Lemma parse_response_raises (response : pyval) (e : pyexc) :
  parse_response response = Raise e → ∃ msg, e = GMGNParsingError msg.
Proof.
  unfold parse_response.
  destruct response as [| | | | | | r];
    try (intros [= <-]; eexists; reflexivity).
  destruct (r !! "data") as [[| | | | | | d] |];
    try (intros [= <-]; eexists; reflexivity).
  destruct (d !! "rank") as [[| | | | | rank_data |] |];
    intros [= <-]; eexists; reflexivity.
Qed.

(** X1: [parse_response] succeeds exactly on a dict whose [data] is a dict
    holding a list under [rank]; on every other response it raises
    [GMGNParsingError] and nothing else. *)
Theorem parse_response_shape (response : pyval) :
  (is_Ok (parse_response response)
     ↔ ∃ r d rank_data, response = VDict r
                        ∧ r !! "data" = Some (VDict d)
                        ∧ d !! "rank" = Some (VList rank_data))
  ∧ (∀ e, parse_response response = Raise e → ∃ msg, e = GMGNParsingError msg).
Proof.
  split; [split |].
  - intros [tokens Hok]. unfold parse_response in Hok.
    destruct response as [| | | | | | r]; try discriminate.
    destruct (r !! "data") as [[| | | | | | d] |] eqn:Hdata; try discriminate.
    destruct (d !! "rank") as [[| | | | | rank_data |] |] eqn:Hrank; try discriminate.
    exists r, d, rank_data. repeat split; assumption.
  - intros (r & d & rank_data & -> & Hdata & Hrank).
    unfold parse_response. rewrite Hdata, Hrank. eexists; reflexivity.
  - intros e. apply parse_response_raises.
Qed.

Lemma omap_length_le {A B} (f : A → option B) (l : list A) :
  (length (omap f l) ≤ length l)%nat.
Proof.
  induction l as [| x l IH]; [simpl; lia |].
  change (omap f (x :: l))
    with (match f x with Some y => y :: omap f l | None => omap f l end).
  destruct (f x); simpl; lia.
Qed.

Lemma omap_length_eq {A B} (f : A → option B) (l : list A) :
  length (omap f l) = length l ↔ Forall (λ x, is_Some (f x)) l.
Proof.
  induction l as [| x l IH].
  - split; [constructor | reflexivity].
  - pose proof (omap_length_le f l) as Hle.
    change (omap f (x :: l))
      with (match f x with Some y => y :: omap f l | None => omap f l end).
    destruct (f x) as [y |] eqn:Hfx; simpl; split.
    + intros Hlen. constructor; [rewrite Hfx; eexists; reflexivity |].
      apply IH. lia.
    + intros Hall. apply Forall_cons in Hall as [_ Hall]. f_equal. apply IH, Hall.
    + lia.
    + intros Hall. apply Forall_cons in Hall as [[y Hy] _]. congruence.
Qed.

(** X2: the number of tokens [parse_response] returns never exceeds the
    length of the rank list, and equals it exactly when every item is a dict
    that [Token.from_dict] accepts. *)
Theorem parse_response_length (r d : gmap string pyval) (rank_data : list pyval)
    (tokens : list Token.t) :
  r !! "data" = Some (VDict d) →
  d !! "rank" = Some (VList rank_data) →
  parse_response (VDict r) = Ok tokens →
  (length tokens ≤ length rank_data)%nat
  ∧ (length tokens = length rank_data
       ↔ Forall (λ item, ∃ item_dict token,
                   item = VDict item_dict ∧ Token.from_dict item_dict = Ok token)
                rank_data).
Proof.
  intros Hdata Hrank. unfold parse_response. rewrite Hdata, Hrank, parse_items_spec.
  simpl. intros [= <-]. split; [apply omap_length_le |].
  rewrite omap_length_eq. apply Forall_proper; [| reflexivity].
  intros item. unfold item_token. split.
  - intros [token Htoken]. destruct item as [| | | | | | item_dict]; try discriminate.
    destruct (Token.from_dict item_dict) as [token' |] eqn:Hfd; [| discriminate].
    exists item_dict, token'. split; [reflexivity | exact Hfd].
  - intros (item_dict & token & -> & ->). eexists; reflexivity.
Qed.

Lemma dict_get_insert_ne (d : gmap string pyval) (k key : string) (v default : pyval) :
  k ≠ key → dict_get (<[k := v]> d) key default = dict_get d key default.
Proof. intros Hne. unfold dict_get. rewrite lookup_insert_ne by exact Hne. reflexivity. Qed.

(** X3: [Token.from_dict] looks at its own keys only: adding or changing an
    entry under any other key changes neither the token nor the exception. *)
Theorem from_dict_ignores_other_keys (d : gmap string pyval) (k : string) (v : pyval) :
  k ∉ token_keys →
  Token.from_dict (<[k := v]> d) = Token.from_dict d.
Proof.
  intros Hk. unfold Token.from_dict.
  assert (Hget : ∀ key default, key ∈ token_keys →
            dict_get (<[k := v]> d) key default = dict_get d key default).
  { intros key default Hin. apply dict_get_insert_ne. intros ->. exact (Hk Hin). }
  rewrite !Hget; [reflexivity | ..];
    unfold token_keys, float_keys, int_keys; simpl;
    repeat first [ apply list_elem_of_here | apply list_elem_of_further ].
Qed.

End MoreParsing.

Lemma from_dict_ignores_other_keys_witness :
  ("_filter_status" ∉ token_keys)
  ∧ @Token.from_dict no_numeric_strings
      (<["_filter_status" := VDict ∅]> (sample_item 2 "BBB" 5))
    = Ok (sample_token 2 "BBB" 5).
Proof.
  assert (Hk : "_filter_status" ∉ token_keys).
  { unfold token_keys, float_keys, int_keys; simpl. intros Hin.
    repeat (apply elem_of_cons in Hin as [Heq | Hin]; [discriminate |]).
    apply elem_of_nil in Hin. exact Hin. }
  split; [exact Hk |].
  rewrite (@from_dict_ignores_other_keys no_numeric_strings
             (sample_item 2 "BBB" 5) "_filter_status" (VDict ∅) Hk).
  vm_compute. reflexivity.
Defined.

Lemma parse_response_length_witness :
  (length [sample_token 1 "AAA" 0; sample_token 2 "BBB" 5] ≤ length sample_rank)%nat.
Proof.
  refine (proj1 (@parse_response_length no_numeric_strings sample_response
                   sample_data sample_rank _ eq_refl eq_refl _)).
  vm_compute. reflexivity.
Defined.

(** ** The client and [get_tokens] *)

Section MoreClient.
Context `{World}.

Lemma handle_outcome_ok (o : outcome) (document : pyval) :
  handle_outcome o = inl document →
  ∃ text, o = Response 200 text (inl document).
Proof.
  destruct o as [text | status_code text json]; simpl; [discriminate |].
  destruct (Z.eqb_spec status_code 200) as [-> | Hne].
  - destruct json as [doc | err]; [| discriminate].
    intros [= ->]. exists text. reflexivity.
  - case_bool_decide; discriminate.
Qed.

Lemma retry_loop_ok (url : string) (params : list (string * string))
    (attempts : list Z) : ∀ (self self' : GMGNClient) (last : option caught)
    (document : pyval),
  retry_loop url params attempts self last = (self', inl document) →
  (1 ≤ requests_sent self')%nat
  ∧ attempt_of url params self' (requests_sent self' - 1) = inl document.
Proof.
  induction attempts as [| attempt rest IH]; intros self self' last document.
  - simpl. discriminate.
  - rewrite retry_loop_cons.
    destruct (attempt_of url params self (requests_sent self)) as [doc | e] eqn:Hout.
    + intros [= <- <-]. simpl. split; [lia |].
      rewrite Nat.sub_0_r. exact Hout.
    + apply IH.
Qed.

(** X4: a document returned by [make_request] is the decoded body of a
    response with status 200, the one received by the last request sent; a
    response with any other status never yields a result. *)
Theorem make_request_ok_from_200 (self : GMGNClient) (url : string)
    (params : list (string * string)) (document : pyval) :
  (make_request self url params).2 = Ok document →
  let self' := (make_request self url params).1 in
  (1 ≤ requests_sent self')%nat
  ∧ ∃ text, session_get (requests_sent self' - 1) (identity self') url params
            = Response 200 text (inl document).
Proof.
  unfold make_request.
  destruct (retry_loop url params (py_range (max_retries (config self))) self None)
    as [self1 [doc | last]] eqn:Hloop; simpl; [| discriminate].
  intros [= ->].
  destruct (retry_loop_ok _ _ _ _ _ _ _ Hloop) as [Hsent Hattempt].
  split; [exact Hsent |]. apply handle_outcome_ok. exact Hattempt.
Qed.

Lemma make_request_raises (self : GMGNClient) (url : string)
    (params : list (string * string)) (e : pyexc) :
  (make_request self url params).2 = Raise e →
  ∃ status_code message, e = GMGNAPIError status_code message.
Proof.
  unfold make_request.
  destruct (retry_loop url params (py_range (max_retries (config self))) self None)
    as [self1 [doc | last]]; simpl; [discriminate |].
  intros [= <-]. destruct last as [[code msg | text] |]; simpl; eauto.
Qed.

Lemma make_request_sent (self : GMGNClient) (url : string)
    (params : list (string * string)) :
  config (make_request self url params).1 = config self
  ∧ (requests_sent self ≤ requests_sent (make_request self url params).1
     ≤ requests_sent self + Z.to_nat (max_retries (config self)))%nat.
Proof.
  unfold make_request, py_range.
  pose proof (retry_loop_spec url params (Z.to_nat (max_retries (config self)))
                O self None eq_refl) as Hspec.
  simpl in Hspec.
  destruct (retry_loop url params (Z.of_nat <$> seq 0 (Z.to_nat (max_retries (config self))))
              self None) as [self' r].
  destruct Hspec as [Hcfg (j & Hj1 & Hj2 & _)]. simpl in *.
  destruct r; simpl; (split; [exact Hcfg | lia]).
Qed.

Context `{PyStrConv}.

(** X5: [get_tokens] raises nothing but [GMGNAPIError] (the request failed)
    or [GMGNParsingError] (the document has the wrong shape), keeps the
    configuration, and sends at most [max_retries] requests. *)
Theorem get_tokens_errors (self : GMGNTokenAPI) (params : QueryParameters.t) :
  let res := get_tokens self params in
  (∀ e, res.2 = Raise e →
     (∃ status_code message, e = GMGNAPIError status_code message)
     ∨ (∃ message, e = GMGNParsingError message))
  ∧ api_config res.1 = api_config self
  ∧ config (client res.1) = config (client self)
  ∧ (requests_sent (client self) ≤ requests_sent (client res.1)
     ≤ requests_sent (client self) + Z.to_nat (max_retries (config (client self))))%nat.
Proof.
  intros res. subst res. unfold get_tokens.
  set (url := base_url (api_config self) +:+ _).
  set (url_params := QueryParameters.to_url_params params).
  pose proof (make_request_raises (client self) url url_params) as Hraise.
  pose proof (make_request_sent (client self) url url_params) as Hsent.
  destruct (make_request (client self) url url_params) as [c response]; simpl in *.
  split; [| split; [reflexivity | exact Hsent]].
  intros e. destruct response as [document | e0]; simpl.
  - intros He. right. exact (parse_response_raises document e He).
  - intros [= <-]. left. apply Hraise. reflexivity.
Qed.

End MoreClient.

Lemma make_request_ok_from_200_witness :
  let world := scripted_world [Response 429 "slow down" (inr "no JSON")]
                              (Response 200 "{}" (inl (VDict ∅))) in
  let self := @client_with_retries world 3 in
  let self' := (@make_request world self "https://gmgn.ai" []).1 in
  (@make_request world self "https://gmgn.ai" []).2 = Ok (VDict ∅)
  ∧ (1 ≤ requests_sent self')%nat
  ∧ ∃ text, @session_get world (requests_sent self' - 1) (identity self')
              "https://gmgn.ai" [] = Response 200 text (inl (VDict ∅)).
Proof.
  intros world self self'.
  assert (Hok : (@make_request world self "https://gmgn.ai" []).2 = Ok (VDict ∅))
    by (vm_compute; reflexivity).
  split; [exact Hok |].
  exact (@make_request_ok_from_200 world self "https://gmgn.ai" [] (VDict ∅) Hok).
Defined.

Lemma get_tokens_errors_witness :
  let world := constant_world (Response 503 "unavailable" (inr "no JSON")) in
  (@get_tokens no_numeric_strings world (@sample_api world)
     (QueryParameters.make SOLANA ONE_HOUR VOLUME)).2
    = Raise (GMGNAPIError 503 "Cloudflare block detected")
  ∧ ((∃ status_code message,
        GMGNAPIError 503 "Cloudflare block detected" = GMGNAPIError status_code message)
     ∨ (∃ message, GMGNAPIError 503 "Cloudflare block detected" = GMGNParsingError message)).
Proof.
  intros world.
  assert (Hrun : (@get_tokens no_numeric_strings world (@sample_api world)
                    (QueryParameters.make SOLANA ONE_HOUR VOLUME)).2
                 = Raise (GMGNAPIError 503 "Cloudflare block detected"))
    by (vm_compute; reflexivity).
  split; [exact Hrun |].
  exact (proj1 (@get_tokens_errors world no_numeric_strings (@sample_api world)
                  (QueryParameters.make SOLANA ONE_HOUR VOLUME)) _ Hrun).
Defined.

(** ** Filters *)

(** X6: [min_age_days] has no effect on [matches]: whatever it is set to,
    the same tokens match. *)
Theorem matches_ignores_min_age_days (c : FilterCriteria.t) (days : option pyfloat)
    (token : Token.t) :
  FilterCriteria.matches (with_min_age_days c days) token
  = FilterCriteria.matches c token.
Proof.
  unfold FilterCriteria.matches, with_min_age_days; simpl.
  repeat match goal with
         | |- context [if ?b then false else _] => destruct b; try reflexivity
         end.
  destruct (FilterCriteria.threshold_set days),
           (FilterCriteria.threshold_set (FilterCriteria.min_age_days c)); reflexivity.
Qed.

Lemma matches_not_honeypot (c : FilterCriteria.t) (token : Token.t) :
  FilterCriteria.exclude_honeypots c = true →
  FilterCriteria.matches c token = true →
  Token.is_honeypot token = 0.
Proof.
  intros Hex Hm. apply matches_true_iff in Hm as [H0 _].
  rewrite Hex in H0. simpl in H0. apply negb_false_iff in H0. lia.
Qed.



Lemma list_filter_sublist {A} (f : A → bool) (l : list A) :
  List.filter f l `sublist_of` l.
Proof.
  induction l as [| x l IH]; simpl; [constructor |].
  destruct (f x); [apply sublist_skip | apply sublist_cons]; exact IH.
Qed.

Lemma list_filter_filter {A} (f g : A → bool) (l : list A) :
  List.filter f (List.filter g l) = List.filter (λ x, g x && f x) l.
Proof.
  induction l as [| x l IH]; simpl; [reflexivity |].
  destruct (g x); simpl; [destruct (f x) |]; rewrite ?IH; reflexivity.
Qed.

(** X8: the criteria filter keeps the order of the tokens and keeps exactly
    the ones that match; applying it twice changes nothing, and two criteria
    filters can be applied in either order. *)
Theorem CriteriaFilter_algebra (c c' : FilterCriteria.t) (tokens : list Token.t) :
  CriteriaFilter c tokens `sublist_of` tokens
  ∧ (∀ token, token ∈ CriteriaFilter c tokens
              ↔ token ∈ tokens ∧ FilterCriteria.matches c token = true)
  ∧ CriteriaFilter c (CriteriaFilter c tokens) = CriteriaFilter c tokens
  ∧ CriteriaFilter c (CriteriaFilter c' tokens)
    = CriteriaFilter c' (CriteriaFilter c tokens).
Proof.
  unfold CriteriaFilter. split; [apply list_filter_sublist |]. split; [| split].
  - intros token. rewrite !list_elem_of_In. apply filter_In.
  - rewrite list_filter_filter. apply filter_ext. intros token.
    destruct (FilterCriteria.matches c token); reflexivity.
  - rewrite !list_filter_filter. apply filter_ext. intros token. apply andb_comm.
Qed.

(** X9: taking the top [n] of the top [m] is taking the top [min n m] when
    neither is negative, and a list no longer than [n] is returned whole. *)
Theorem TopNFilter_compose (n m : Z) (tokens : list Token.t) :
  (0 ≤ n → 0 ≤ m → TopNFilter n (TopNFilter m tokens) = TopNFilter (Z.min n m) tokens)
  ∧ (Z.of_nat (length tokens) ≤ n → TopNFilter n tokens = tokens).
Proof.
  unfold TopNFilter, slice_to. split.
  - intros Hn Hm.
    destruct (Z.ltb_spec n 0), (Z.ltb_spec m 0), (Z.ltb_spec (Z.min n m) 0); try lia.
    rewrite take_take. f_equal. lia.
  - intros Hlen. destruct (Z.ltb_spec n 0); [lia |].
    apply take_ge. lia.
Qed.

Lemma TopNFilter_compose_witness :
  0 ≤ 2 ∧ 0 ≤ 1
  ∧ TopNFilter 2 (TopNFilter 1 [sample_token 1 "A" 0; sample_token 2 "B" 0])
    = TopNFilter (Z.min 2 1) [sample_token 1 "A" 0; sample_token 2 "B" 0].
Proof.
  assert (H2 : 0 ≤ 2) by lia. assert (H1 : 0 ≤ 1) by lia.
  split; [exact H2 |]. split; [exact H1 |].
  exact (proj1 (TopNFilter_compose 2 1 [sample_token 1 "A" 0; sample_token 2 "B" 0]) H2 H1).
Defined.

(** X10: a composite of two lists of filters put end to end is the second
    composite applied to the result of the first, and a composite whose
    components are composites does what the flattened list does. *)
Theorem CompositeFilter_app (fs gs : list TokenFilter) (tokens : list Token.t) :
  CompositeFilter (fs ++ gs) tokens = CompositeFilter gs (CompositeFilter fs tokens)
  ∧ CompositeFilter [CompositeFilter fs; CompositeFilter gs] tokens
    = CompositeFilter (fs ++ gs) tokens.
Proof.
  unfold CompositeFilter. simpl. rewrite composite_loop_app.
  split; reflexivity.
Qed.

(** ** The convenience methods and the factory functions *)

Section MoreMethods.
Context `{PyStrConv} `{World}.

Lemma get_tokens_with_filter_spec (self : GMGNTokenAPI) (params : QueryParameters.t)
    (f : TokenFilter) :
  get_tokens_with_filter self params f
  = ((get_tokens self params).1, f <$> (get_tokens self params).2).
Proof.
  unfold get_tokens_with_filter. destruct (get_tokens self params); reflexivity.
Qed.

Lemma criteria_then_top (c : FilterCriteria.t) (limit : Z) (fetched : list Token.t) :
  let tokens := CompositeFilter [CriteriaFilter c; TopNFilter limit] fetched in
  tokens = slice_to (List.filter (FilterCriteria.matches c) fetched) limit
  ∧ tokens `sublist_of` fetched
  ∧ Forall (λ token, FilterCriteria.matches c token = true) tokens
  ∧ (0 ≤ limit → Z.of_nat (length tokens) ≤ limit).
Proof.
  simpl. unfold CompositeFilter, TopNFilter, CriteriaFilter; simpl.
  set (kept := List.filter (FilterCriteria.matches c) fetched).
  split; [reflexivity |].
  assert (Hpre : slice_to kept limit `prefix_of` kept) by apply slice_to_prefix.
  split; [| split].
  - transitivity kept; [| apply list_filter_sublist].
    destruct Hpre as [rest Hrest]. rewrite Hrest at 2.
    apply sublist_inserts_r. reflexivity.
  - apply Forall_forall. intros token Hin.
    assert (Hk : token ∈ kept).
    { destruct Hpre as [rest Hrest]. rewrite Hrest. apply elem_of_app. left. exact Hin. }
    apply list_elem_of_In, filter_In in Hk as [_ Hm]. exact Hm.
  - intros Hlimit. rewrite slice_to_length.
    destruct (Z.ltb_spec limit 0); lia.
Qed.

(** X11: the tokens [get_filtered_tokens] returns are tokens of the fetched
    ranking, in their order, every one of them matches the criteria, and when
    [limit] is not negative there are at most [limit] of them. *)
Theorem get_filtered_tokens_result (self : GMGNTokenAPI) (chain : Chain)
    (filter_criteria : FilterCriteria.t) (criteria : SortCriteria) (limit : Z)
    (tokens : list Token.t) :
  (get_filtered_tokens self chain filter_criteria criteria limit).2 = Ok tokens →
  ∃ fetched,
    (get_tokens self (QueryParameters.make chain TWENTY_FOUR_HOURS criteria)).2
      = Ok fetched
    ∧ tokens `sublist_of` fetched
    ∧ Forall (λ token, FilterCriteria.matches filter_criteria token = true) tokens
    ∧ (0 ≤ limit → Z.of_nat (length tokens) ≤ limit).
Proof.
  unfold get_filtered_tokens. rewrite get_tokens_with_filter_spec. simpl.
  destruct (get_tokens self _).2 as [fetched | e]; simpl; [| discriminate].
  intros [= <-]. exists fetched. split; [reflexivity |].
  apply (criteria_then_top filter_criteria limit fetched).
Qed.

Lemma not_above (value : pyfloat) (bound : pyfloat) :
  float_truthy bound = true →
  FilterCriteria.above value (Some bound) = false → fgt value bound = false.
Proof. simpl. intros ->. simpl. tauto. Qed.

(** X12: no token returned by [get_small_cap_tokens] is a honeypot, has a
    market cap above 200000, a liquidity above 150000 or a volume above
    300000, and when [limit] is not negative there are at most [limit] of
    them. *)
Theorem get_small_cap_tokens_bounds (self : GMGNTokenAPI) (chain : Chain)
    (criteria : SortCriteria) (limit : Z) (tokens : list Token.t) :
  (get_small_cap_tokens self chain criteria limit).2 = Ok tokens →
  Forall (λ token,
            Token.is_honeypot token = 0
            ∧ fgt (Token.market_cap token) (float_of_Z 200000) = false
            ∧ fgt (Token.liquidity token) (float_of_Z 150000) = false
            ∧ fgt (Token.volume token) (float_of_Z 300000) = false) tokens
  ∧ (0 ≤ limit → Z.of_nat (length tokens) ≤ limit).
Proof.
  unfold get_small_cap_tokens. rewrite get_tokens_with_filter_spec. simpl.
  destruct (get_tokens self _).2 as [fetched | e]; simpl; [| discriminate].
  intros [= <-].
  destruct (criteria_then_top small_cap_criteria limit fetched) as (_ & _ & Hall & Hlen).
  split; [| exact Hlen].
  eapply Forall_impl; [exact Hall |]. intros token Hm. simpl in Hm.
  split; [exact (matches_not_honeypot small_cap_criteria token eq_refl Hm) |].
  apply matches_true_iff in Hm as (_ & _ & Hvol & _ & Hcap & _ & Hliq & _).
  split; [exact (not_above _ (float_of_Z 200000) eq_refl Hcap) |].
  split; [exact (not_above _ (float_of_Z 150000) eq_refl Hliq) |].
  exact (not_above _ (float_of_Z 300000) eq_refl Hvol).
Qed.


(** X14: [get_safe_tokens] raises [TypeError] for every chain, criteria and
    limit: it builds its [QueryParameters] without the required
    [time_period].  The API object is unchanged, no request is sent and no
    token list is returned; the same constructor call with a [time_period]
    goes through. *)
Theorem get_safe_tokens_type_error (self : GMGNTokenAPI) (chain : Chain)
    (criteria : SortCriteria) (limit : Z) :
  get_safe_tokens self chain criteria limit = (self, Raise TypeError)
  ∧ requests_sent (client (get_safe_tokens self chain criteria limit).1)
    = requests_sent (client self)
  ∧ ¬ is_Ok (get_safe_tokens self chain criteria limit).2
  ∧ ∀ time_period,
      QueryParameters_init (Some chain) (Some time_period) (Some criteria) None
        (Some true) (Some true) (Some true)
      = Ok (QueryParameters.mk chain time_period criteria DESCENDING true true true).
Proof.
  assert (Hrun : get_safe_tokens self chain criteria limit = (self, Raise TypeError))
    by reflexivity.
  rewrite Hrun. repeat split.
  intros [tokens Htokens]. discriminate.
Qed.

(** X15: [get_formatted_tokens] returns one line per token that the filter
    lets through, and line [i] (counting from 0) is the formatter applied to
    token [i] and the index [i + 1]. *)
Theorem get_formatted_tokens_lines (self : GMGNTokenAPI) (params : QueryParameters.t)
    (formatter : TokenFormatter) (filter_instance : option TokenFilter)
    (lines : list string) :
  (get_formatted_tokens self params formatter filter_instance).2 = Ok lines →
  ∃ fetched,
    (get_tokens self params).2 = Ok fetched
    ∧ let tokens := default BaseTokenFilter filter_instance fetched in
      length lines = length tokens
      ∧ ∀ (i : nat) token, tokens !! i = Some token →
          lines !! i = Some (formatter token (Z.of_nat i + 1)).
Proof.
  unfold get_formatted_tokens.
  destruct (get_tokens self params) as [self' [fetched | e]]; simpl; [| discriminate].
  intros [= <-]. exists fetched. split; [reflexivity |].
  assert (Hsame : match filter_instance with
                  | Some f => f fetched
                  | None => fetched
                  end = default BaseTokenFilter filter_instance fetched)
    by (destruct filter_instance; reflexivity).
  rewrite Hsame. simpl. split.
  - apply length_imap.
  - intros i token Hi. rewrite list_lookup_imap, Hi. reflexivity.
Qed.

End MoreMethods.

(** X16: the query [create_gainers_query] builds sorts by the price change
    of the period, descending, with the honeypot filter only; periods longer
    than five minutes all sort by the one-hour change. *)
Theorem create_gainers_query_params (chain : Chain) (time_period : TimePeriod) :
  QueryParameters.to_url_params (create_gainers_query chain time_period)
  = [("orderby", match time_period with
                 | ONE_MINUTE => "change1m"
                 | FIVE_MINUTES => "change5m"
                 | ONE_HOUR | SIX_HOURS | TWENTY_FOUR_HOURS => "change1h"
                 end);
     ("direction", "desc");
     ("filters[]", "not_honeypot")]
  ∧ QueryParameters.chain (create_gainers_query chain time_period) = chain
  ∧ QueryParameters.time_period (create_gainers_query chain time_period) = time_period.
Proof. destruct time_period; repeat split. Qed.

Lemma get_small_cap_tokens_bounds_witness :
  (@get_small_cap_tokens no_numeric_strings sample_world
     (@sample_api sample_world) SOLANA VOLUME 1).2
    = Ok [sample_token 1 "AAA" 0]
  ∧ (0 ≤ 1 → Z.of_nat (length [sample_token 1 "AAA" 0]) ≤ 1).
Proof.
  assert (Hrun : (@get_small_cap_tokens no_numeric_strings sample_world
                    (@sample_api sample_world) SOLANA VOLUME 1).2
                 = Ok [sample_token 1 "AAA" 0]) by (vm_compute; reflexivity).
  split; [exact Hrun |].
  exact (proj2 (@get_small_cap_tokens_bounds no_numeric_strings sample_world
                  (@sample_api sample_world) SOLANA VOLUME 1 _ Hrun)).
Defined.

Lemma get_filtered_tokens_result_witness :
  (@get_filtered_tokens no_numeric_strings sample_world
     (@sample_api sample_world) SOLANA (criteria_min_change 1) VOLUME 5).2
    = Ok [sample_token 2 "BBB" 5]
  ∧ ∃ fetched,
      (@get_tokens no_numeric_strings sample_world (@sample_api sample_world)
         (QueryParameters.make SOLANA TWENTY_FOUR_HOURS VOLUME)).2 = Ok fetched
      ∧ [sample_token 2 "BBB" 5] `sublist_of` fetched
      ∧ Forall (λ token, FilterCriteria.matches (criteria_min_change 1) token = true)
               [sample_token 2 "BBB" 5]
      ∧ (0 ≤ 5 → Z.of_nat (length [sample_token 2 "BBB" 5]) ≤ 5).
Proof.
  assert (Hrun : (@get_filtered_tokens no_numeric_strings sample_world
                    (@sample_api sample_world) SOLANA (criteria_min_change 1) VOLUME 5).2
                 = Ok [sample_token 2 "BBB" 5]) by (vm_compute; reflexivity).
  split; [exact Hrun |].
  exact (@get_filtered_tokens_result no_numeric_strings sample_world
           (@sample_api sample_world) SOLANA (criteria_min_change 1) VOLUME 5 _ Hrun).
Defined.


Lemma get_formatted_tokens_lines_witness :
  let formatter : TokenFormatter := λ token index, pretty index in
  (@get_formatted_tokens no_numeric_strings sample_world
     (@sample_api sample_world) (QueryParameters.make SOLANA ONE_HOUR VOLUME)
     formatter None).2 = Ok ["1"; "2"]
  ∧ ∃ fetched,
      (@get_tokens no_numeric_strings sample_world (@sample_api sample_world)
         (QueryParameters.make SOLANA ONE_HOUR VOLUME)).2 = Ok fetched
      ∧ length ["1"; "2"] = length fetched.
Proof.
  intros formatter.
  assert (Hrun : (@get_formatted_tokens no_numeric_strings sample_world
                    (@sample_api sample_world)
                    (QueryParameters.make SOLANA ONE_HOUR VOLUME)
                    formatter None).2 = Ok ["1"; "2"]) by (vm_compute; reflexivity).
  split; [exact Hrun |].
  destruct (@get_formatted_tokens_lines no_numeric_strings sample_world
              (@sample_api sample_world) (QueryParameters.make SOLANA ONE_HOUR VOLUME)
              formatter None _ Hrun) as (fetched & Hfetched & Hlen & _).
  exists fetched. split; [exact Hfetched | exact Hlen].
Defined.

(** ** Rugcheck *)

Section MoreRugcheck.
Context `{PyStrConv} `{World} `{Rugcheck} `{PyExcStr}.

(** X17: the dictionary [check_token_rug_risk] returns has one of two
    shapes.  Either the check failed: [risk_score] is [None] and [error]
    holds a text.  Or it went through: [risk_score] is a float between 0.0
    and 1.0, and [is_rugged], [rugcheck_score] and [normalized_score] are
    present. *)
Theorem check_token_rug_risk_shape (token_address : pyval) (chain : Chain) :
  let result := check_token_rug_risk token_address chain in
  (result !! "risk_score" = Some VNone ∧ ∃ text, result !! "error" = Some (VStr text))
  ∨ (∃ score, result !! "risk_score" = Some (VFloat score)
              ∧ in_unit_interval score
              ∧ is_Some (result !! "is_rugged")
              ∧ is_Some (result !! "rugcheck_score")
              ∧ is_Some (result !! "normalized_score")).
Proof.
  unfold check_token_rug_risk.
  destruct (rugcheck_to_dict token_address) as [result | text]; simpl.
  - destruct (_extract_risk_score result) as [score | e] eqn:Hscore.
    + right. exists score.
      split; [rewrite !lookup_insert_ne by discriminate; apply lookup_insert_eq |].
      split; [exact (extract_risk_score_in_range result score Hscore) |].
      split; [| split]; eexists.
      * rewrite !lookup_insert_ne by discriminate. apply lookup_insert_eq.
      * rewrite lookup_insert_ne by discriminate. apply lookup_insert_eq.
      * apply lookup_insert_eq.
    + left. unfold rugcheck_error. split; [apply lookup_insert_eq |].
      eexists. rewrite lookup_insert_ne by discriminate. apply lookup_insert_eq.
  - left. unfold rugcheck_error. split; [apply lookup_insert_eq |].
    eexists. rewrite lookup_insert_ne by discriminate. apply lookup_insert_eq.
Qed.

Lemma risk_score_float_or_none (token_address : pyval) (chain : Chain) :
  check_token_rug_risk token_address chain !! "risk_score" = Some VNone
  ∨ ∃ score, check_token_rug_risk token_address chain !! "risk_score"
             = Some (VFloat score)
             ∧ in_unit_interval score.
Proof.
  unfold check_token_rug_risk.
  destruct (rugcheck_to_dict token_address) as [result | text]; simpl.
  - destruct (_extract_risk_score result) as [score | e] eqn:Hscore.
    + right. exists score. split.
      * rewrite !lookup_insert_ne by discriminate. apply lookup_insert_eq.
      * exact (extract_risk_score_in_range result score Hscore).
    + left. apply lookup_insert_eq.
  - left. apply lookup_insert_eq.
Qed.

Lemma list_filter_none {A} (f : A → bool) (l : list A) :
  (∀ x, x ∈ l → f x = false) → List.filter f l = [].
Proof.
  induction l as [| x l IH]; intros Hall; simpl; [reflexivity |].
  rewrite (Hall x) by apply list_elem_of_here.
  apply IH. intros y Hy. apply Hall. apply list_elem_of_further, Hy.
Qed.

Lemma safe_tokens_loop_spec (chain : Chain) (max_risk_score : pyfloat)
    (tokens : list Token.t) : ∀ safe_tokens,
  safe_tokens_loop chain max_risk_score tokens safe_tokens
  = Ok (safe_tokens ++ List.filter (rugcheck_passes chain max_risk_score) tokens).
Proof.
  induction tokens as [| token rest IH]; intros safe_tokens; simpl.
  - rewrite app_nil_r. reflexivity.
  - unfold rugcheck_passes, dict_get.
    destruct (check_token_rug_risk (Token.address token) chain !! "error").
    + apply IH.
    + destruct (risk_score_float_or_none (Token.address token) chain)
        as [Hnone | (score & Hscore & _)].
      * rewrite Hnone. apply IH.
      * rewrite Hscore. simpl. destruct (fle score max_risk_score).
        -- rewrite IH, <- app_assoc. reflexivity.
        -- apply IH.
Qed.

(** X18: [filter_safe_tokens_by_rugcheck] never raises.  It returns, in
    their order, the tokens whose rugcheck went through without an [error]
    key and gave a risk score of at most [max_risk_score]; with a negative
    [max_risk_score] it returns nothing. *)
Theorem filter_safe_tokens_by_rugcheck_spec (tokens : list Token.t) (chain : Chain)
    (max_risk_score : pyfloat) :
  ∃ safe_tokens,
    filter_safe_tokens_by_rugcheck tokens chain max_risk_score = Ok safe_tokens
    ∧ safe_tokens = List.filter (rugcheck_passes chain max_risk_score) tokens
    ∧ safe_tokens `sublist_of` tokens
    ∧ (∀ token, token ∈ safe_tokens →
         ∃ score,
           check_token_rug_risk (Token.address token) chain !! "risk_score"
             = Some (VFloat score)
           ∧ fle score max_risk_score = true
           ∧ in_unit_interval score)
    ∧ (flt max_risk_score (FNum 0) = true → safe_tokens = []).
Proof.
  eexists. split; [apply safe_tokens_loop_spec |]. simpl.
  split; [reflexivity |]. split; [apply list_filter_sublist |].
  assert (Hpass : ∀ token, rugcheck_passes chain max_risk_score token = true →
            ∃ score,
              check_token_rug_risk (Token.address token) chain !! "risk_score"
                = Some (VFloat score)
              ∧ fle score max_risk_score = true
              ∧ in_unit_interval score).
  { intros token. unfold rugcheck_passes.
    destruct (check_token_rug_risk (Token.address token) chain !! "error");
      [discriminate |].
    destruct (risk_score_float_or_none (Token.address token) chain)
      as [Hnone | (score & Hscore & Hrange)].
    - rewrite Hnone. discriminate.
    - rewrite Hscore. intros Hle. exists score. repeat split; try assumption;
        apply Hrange. }
  split.
  - intros token Hin. apply list_elem_of_In, filter_In in Hin as [_ Hp].
    exact (Hpass token Hp).
  - intros Hneg. apply list_filter_none. intros token _.
    destruct (rugcheck_passes chain max_risk_score token) eqn:Hp; [| reflexivity].
    destruct (Hpass token Hp) as (score & _ & Hle & [Hzero _]).
    exfalso. clear -Hneg Hle Hzero.
    destruct score as [q | | |], max_risk_score as [m | | |]; simpl in *;
      try discriminate.
    apply Qlt_bool_iff in Hneg. apply Qle_bool_iff in Hle, Hzero.
    apply (Qlt_irrefl 0). eapply Qle_lt_trans; [exact Hzero |].
    eapply Qle_lt_trans; [exact Hle | exact Hneg].
Qed.

End MoreRugcheck.

Section MoreRugcheckAPI.
Context `{PyStrConv} `{World} `{Rugcheck} `{PyExcStr}.

Lemma slice_to_sublist {A} (l : list A) (n : Z) : slice_to l n `sublist_of` l.
Proof. unfold slice_to. destruct (n <? 0); apply sublist_take. Qed.

(** X19: [get_rugcheck_verified_tokens] fails only when [get_tokens] fails,
    with the same exception.  Otherwise it returns tokens of the fetched
    ranking, in their order, each of which passes the rugcheck test, and at
    most [limit] of them when [limit] is not negative. *)
Theorem get_rugcheck_verified_tokens_result (self : GMGNTokenAPI) (chain : Chain)
    (criteria : SortCriteria) (limit : Z) (max_risk_score : pyfloat) :
  let res := get_rugcheck_verified_tokens self chain criteria limit max_risk_score in
  let fetch := get_tokens self (QueryParameters.mk chain TWENTY_FOUR_HOURS criteria
                                  DESCENDING true false false) in
  res.1 = fetch.1
  ∧ match fetch.2 with
    | Raise e => res.2 = Raise e
    | Ok fetched =>
        ∃ tokens,
          res.2 = Ok tokens
          ∧ tokens `sublist_of` fetched
          ∧ Forall (λ token, rugcheck_passes chain max_risk_score token = true) tokens
          ∧ (0 ≤ limit → Z.of_nat (length tokens) ≤ limit)
    end.
Proof.
  unfold get_rugcheck_verified_tokens.
  destruct (get_tokens self _) as [self' [fetched | e]]; simpl;
    (split; [reflexivity |]); [| reflexivity].
  unfold filter_safe_tokens_by_rugcheck. rewrite safe_tokens_loop_spec. simpl.
  set (kept := List.filter (rugcheck_passes chain max_risk_score)
                 (slice_to fetched (limit * 3))).
  exists (slice_to kept limit). split; [reflexivity |]. split; [| split].
  - transitivity kept; [apply slice_to_sublist |].
    transitivity (slice_to fetched (limit * 3));
      [apply list_filter_sublist | apply slice_to_sublist].
  - apply Forall_forall. intros token Hin.
    assert (Hk : token ∈ kept).
    { destruct (slice_to_prefix kept limit) as [rest Hrest].
      rewrite Hrest. apply elem_of_app. left. exact Hin. }
    apply list_elem_of_In, filter_In in Hk as [_ Hp]. exact Hp.
  - intros Hlimit. rewrite slice_to_length. destruct (Z.ltb_spec limit 0); lia.
Qed.

(** X20: [get_tokens_with_rugcheck] fails only when [get_tokens] fails.
    Otherwise it returns one pair per fetched token, in the same order, whose
    second component is the token's rugcheck result, or [None] throughout when
    [check_rug] is off. *)
Theorem get_tokens_with_rugcheck_pairs (self : GMGNTokenAPI)
    (params : QueryParameters.t) (check_rug : bool) :
  let res := get_tokens_with_rugcheck self params check_rug in
  res.1 = (get_tokens self params).1
  ∧ match (get_tokens self params).2 with
    | Raise e => res.2 = Raise e
    | Ok fetched =>
        ∃ pairs,
          res.2 = Ok pairs
          ∧ pairs.*1 = fetched
          ∧ pairs.*2 =
              (λ token,
                 if check_rug
                 then Some (check_token_rug_risk (Token.address token)
                              (QueryParameters.chain params))
                 else None) <$> fetched
    end.
Proof.
  unfold get_tokens_with_rugcheck.
  destruct (get_tokens self params) as [self' [fetched | e]]; simpl;
    (split; [reflexivity |]); [| reflexivity].
  destruct check_rug; simpl; eexists; (split; [reflexivity |]);
    rewrite <- !list_fmap_compose; split;
    first [ apply list_fmap_id | reflexivity ].
Qed.

End MoreRugcheckAPI.

(** The rugcheck methods on the sample response: the first token's address
    is unknown to the service, so nothing is verified. *)
Example rugcheck_on_sample :
  @check_token_rug_risk no_numeric_strings sample_rugcheck no_exception_text
    (VStr "good") SOLANA !! "risk_score" = Some (VFloat (FNum (1 # 4)))
  ∧ @check_token_rug_risk no_numeric_strings sample_rugcheck no_exception_text
      (VStr "") SOLANA !! "risk_score" = Some VNone
  ∧ (@get_rugcheck_verified_tokens no_numeric_strings sample_world sample_rugcheck
       no_exception_text (@sample_api sample_world) SOLANA VOLUME 5 (FNum (3 # 10))).2
    = Ok [].
Proof. vm_compute. repeat split. Qed.

(** ** The wrapper of [gmgntry.py] *)

Section MoreWrapper.
Context `{PyStrConv} `{World}.


(** The three attempts of [get_token_rankings], unrolled. *)
Lemma get_token_rankings_spec (self : GMGNWrapper.t) (chain : Chain)
    (time_period : TimePeriod) (criteria : SortCriteria) (direction : SortDirection)
    (include_not_honeypot include_verified include_renounced : bool) :
  let res := GMGNWrapper.get_token_rankings self chain time_period criteria direction
               include_not_honeypot include_verified include_renounced in
  let url := GMGNWrapper.rankings_url chain time_period in
  let params := GMGNWrapper.rankings_params criteria direction include_not_honeypot
                  include_verified include_renounced in
  ∃ attempts : nat,
    (1 ≤ attempts ≤ 3)%nat
    ∧ GMGNWrapper.requests_sent res.1 = (GMGNWrapper.requests_sent self + attempts)%nat
    ∧ GMGNWrapper.sessions_made res.1 = (GMGNWrapper.sessions_made self + attempts)%nat
    ∧ match res.2 with
      | Ok document =>
          GMGNWrapper.attempt_result
            (session_get (GMGNWrapper.requests_sent res.1 - 1)
               (GMGNWrapper.identity res.1) url params) = inl document
      | Raise e =>
          attempts = 3%nat
          ∧ ∃ text,
              GMGNWrapper.attempt_result
                (session_get (GMGNWrapper.requests_sent res.1 - 1)
                   (GMGNWrapper.identity res.1) url params) = inr text
              ∧ e = Exception ("All 3 attempts failed. Last error: " +:+ text)
      end.
Proof.
  intros res url params. subst res.
  unfold GMGNWrapper.get_token_rankings. fold url. fold params.
  change (py_range GMGNWrapper.max_retries) with [0; 1; 2].
  set (self0 := GMGNWrapper.randomiseRequest self).
  cbn [GMGNWrapper.rankings_loop].
  change (0 <? GMGNWrapper.max_retries - 1) with true.
  change (1 <? GMGNWrapper.max_retries - 1) with true.
  change (2 <? GMGNWrapper.max_retries - 1) with false.
  cbv iota.
  assert (Hsub : ∀ n : nat, (S n - 1)%nat = n) by (intros; lia).
  destruct (GMGNWrapper.attempt_result
              (session_get (GMGNWrapper.requests_sent self0)
                 (GMGNWrapper.identity self0) url params)) as [doc | e1] eqn:H1.
  { exists 1%nat. cbn [fst snd].
    change (GMGNWrapper.requests_sent (GMGNWrapper.request_counted self0))
      with (S (GMGNWrapper.requests_sent self0)).
    rewrite Hsub. repeat split; try (simpl; lia). exact H1. }
  set (self1 := GMGNWrapper.refresh_session (GMGNWrapper.request_counted self0)).
  destruct (GMGNWrapper.attempt_result
              (session_get (GMGNWrapper.requests_sent self1)
                 (GMGNWrapper.identity self1) url params)) as [doc | e2] eqn:H2.
  { exists 2%nat. cbn [fst snd].
    change (GMGNWrapper.requests_sent (GMGNWrapper.request_counted self1))
      with (S (GMGNWrapper.requests_sent self1)).
    rewrite Hsub. repeat split; try (simpl; lia). exact H2. }
  set (self2 := GMGNWrapper.refresh_session (GMGNWrapper.request_counted self1)).
  destruct (GMGNWrapper.attempt_result
              (session_get (GMGNWrapper.requests_sent self2)
                 (GMGNWrapper.identity self2) url params)) as [doc | e3] eqn:H3.
  { exists 3%nat. cbn [fst snd].
    change (GMGNWrapper.requests_sent (GMGNWrapper.request_counted self2))
      with (S (GMGNWrapper.requests_sent self2)).
    rewrite Hsub. repeat split; try (simpl; lia). exact H3. }
  exists 3%nat. cbn [fst snd].
  change (GMGNWrapper.requests_sent (GMGNWrapper.request_counted self2))
    with (S (GMGNWrapper.requests_sent self2)).
  rewrite Hsub. repeat split; try (simpl; lia).
  exists e3. split; [exact H3 | reflexivity].
Qed.


(** The wrapper and [QueryParameters.to_url_params] build the same
    parameter list from the same settings, and the wrapper's URL is the one
    [get_tokens] builds under the default configuration. *)
Lemma rankings_params_agree (chain : Chain) (time_period : TimePeriod)
    (criteria : SortCriteria) (direction : SortDirection)
    (include_not_honeypot include_verified include_renounced : bool) :
  GMGNWrapper.rankings_params criteria direction include_not_honeypot
    include_verified include_renounced
  = QueryParameters.to_url_params
      (QueryParameters.mk chain time_period criteria direction
         include_not_honeypot include_verified include_renounced)
  ∧ GMGNWrapper.rankings_url chain time_period
    = base_url create_default +:+ "/" +:+ Chain_value chain +:+ "/swaps/"
      +:+ TimePeriod_value time_period.
Proof. split; reflexivity. Qed.

(** X22: [parse_token_data] returns a list exactly when the response is a
    dict whose [data] is a dict whose [rank] is a list that starts with a
    dict, and then it returns that list; on every such response
    [parse_response] succeeds too, with the tokens of that list.  An empty
    rank list is refused by [parse_token_data] and accepted by
    [parse_response]. *)
Theorem parse_token_data_spec (response : pyval) :
  (∀ token_data,
     GMGNWrapper.parse_token_data response = Some token_data
     ↔ ∃ r d first rest,
         response = VDict r ∧ r !! "data" = Some (VDict d)
         ∧ d !! "rank" = Some (VList token_data)
         ∧ token_data = VDict first :: rest)
  ∧ (∀ token_data,
       GMGNWrapper.parse_token_data response = Some token_data →
       parse_response response = Ok (omap item_token token_data))
  ∧ GMGNWrapper.parse_token_data (VDict {["data" := VDict {["rank" := VList []]}]})
    = None
  ∧ parse_response (VDict {["data" := VDict {["rank" := VList []]}]}) = Ok [].
Proof.
  assert (Hfwd : ∀ token_data,
            GMGNWrapper.parse_token_data response = Some token_data →
            ∃ r d first rest,
              response = VDict r ∧ r !! "data" = Some (VDict d)
              ∧ d !! "rank" = Some (VList token_data)
              ∧ token_data = VDict first :: rest).
  { intros token_data. unfold GMGNWrapper.parse_token_data.
    destruct response as [| | | | | | r]; try discriminate.
    destruct (r !! "data") as [[| | | | | | d] |] eqn:Hdata; try discriminate.
    destruct (d !! "rank") as [[| | | | | rank |] |] eqn:Hrank; try discriminate.
    destruct rank as [| [| | | | | | first] rest]; try discriminate.
    intros [= <-]. exists r, d, first, rest. repeat split; assumption. }
  split; [| split; [| split; reflexivity]].
  - intros token_data. split; [apply Hfwd |].
    intros (r & d & first & rest & -> & Hdata & Hrank & ->).
    unfold GMGNWrapper.parse_token_data. rewrite Hdata, Hrank. reflexivity.
  - intros token_data Hsome.
    destruct (Hfwd token_data Hsome) as (r & d & first & rest & -> & Hdata & Hrank & _).
    unfold parse_response. rewrite Hdata, Hrank, parse_items_spec. reflexivity.
Qed.

End MoreWrapper.

Section MoreWrapperFilters.
Context `{PyStrConv} `{World}.

Lemma meets_criteria_true (token : gmap string pyval)
    (criteria_filters : list (SortCriteria * pyfloat)) :
  GMGNWrapper.meets_criteria token criteria_filters = Ok true →
  Forall (at_least token) criteria_filters.
Proof.
  induction criteria_filters as [| [filter_criteria min_value] rest IH]; simpl.
  - intros _. constructor.
  - destruct (GMGNWrapper.field_mapping filter_criteria) as [field_name |] eqn:Hmap.
    + destruct (GMGNWrapper.token_value token field_name) as [value | e] eqn:Hval;
        simpl; [| discriminate].
      destruct (flt value min_value) eqn:Hlt; [discriminate |].
      intros Hrest. constructor; [| exact (IH Hrest)].
      intros f Hf. simpl in Hf. rewrite Hmap in Hf. injection Hf as <-.
      exists value. split; assumption.
    + intros Hrest. constructor; [| exact (IH Hrest)].
      intros f Hf. simpl in Hf. congruence.
Qed.

Lemma filter_loop_spec (criteria_filters : list (SortCriteria * pyfloat))
    (token_data : list pyval) : ∀ filtered_tokens out,
  GMGNWrapper.filter_loop criteria_filters token_data filtered_tokens = Ok out →
  ∃ kept,
    out = filtered_tokens ++ kept
    ∧ (length kept ≤ length token_data)%nat
    ∧ Forall (λ token,
                ∃ d status,
                  VDict d ∈ token_data
                  ∧ token = VDict (<["_filter_status" := VDict status]> d)
                  ∧ Forall (at_least d) criteria_filters) kept.
Proof.
  induction token_data as [| item rest IH]; intros filtered_tokens out; simpl.
  - intros [= <-]. exists []. rewrite app_nil_r.
    split; [reflexivity |]. split; [simpl; lia | constructor].
  - assert (Hskip : GMGNWrapper.filter_loop criteria_filters rest filtered_tokens = Ok out →
              ∃ kept,
                out = filtered_tokens ++ kept
                ∧ (length kept ≤ S (length rest))%nat
                ∧ Forall (λ token,
                            ∃ d status,
                              VDict d ∈ item :: rest
                              ∧ token = VDict (<["_filter_status" := VDict status]> d)
                              ∧ Forall (at_least d) criteria_filters) kept).
    { intros Hrest. destruct (IH _ _ Hrest) as (kept & -> & Hlen & Hall).
      exists kept. split; [reflexivity |]. split; [lia |].
      eapply Forall_impl; [exact Hall |].
      intros token (d & status & Hin & Heq & Hd).
      exists d, status. split; [apply list_elem_of_further, Hin | split; assumption]. }
    destruct item as [| | | | | | d]; try exact Hskip.
    destruct (GMGNWrapper.meets_criteria d criteria_filters) as [[|] | e] eqn:Hmeets;
      simpl; [| exact Hskip | discriminate].
    intros Hrest. destruct (IH _ _ Hrest) as (kept & -> & Hlen & Hall).
    eexists (_ :: kept). rewrite <- app_assoc. split; [reflexivity |].
    split; [simpl; lia |]. constructor.
    + eexists d, _. split; [apply list_elem_of_here |]. split; [reflexivity |].
      exact (meets_criteria_true d criteria_filters Hmeets).
    + eapply Forall_impl; [exact Hall |].
      intros token (d' & status & Hin & Heq & Hd).
      exists d', status. split; [apply list_elem_of_further, Hin | split; assumption].
Qed.

Lemma get_filtered_rankings_ok (self : GMGNWrapper.t) (chain : Chain)
    (primary_criteria : SortCriteria)
    (criteria_filters : list (SortCriteria * pyfloat))
    (time_period : TimePeriod) (direction : SortDirection) (tokens : list pyval) :
  (GMGNWrapper.get_filtered_rankings self chain primary_criteria criteria_filters
     time_period direction).2 = Ok tokens →
  ∃ response,
    (GMGNWrapper.get_token_rankings self chain time_period primary_criteria
       direction true false false).2 = Ok response
    ∧ Forall (λ token,
                ∃ d status token_data,
                  GMGNWrapper.parse_token_data response = Some token_data
                  ∧ VDict d ∈ token_data
                  ∧ token = VDict (<["_filter_status" := VDict status]> d)
                  ∧ Forall (at_least d) criteria_filters) tokens.
Proof.
  unfold GMGNWrapper.get_filtered_rankings.
  destruct criteria_filters as [| threshold rest]; [discriminate |].
  destruct (GMGNWrapper.get_token_rankings self chain time_period primary_criteria
              direction true false false) as [self' [response | e]];
    simpl; [| discriminate].
  intros Hrun. exists response. split; [reflexivity |].
  destruct (GMGNWrapper.parse_token_data response) as [token_data |] eqn:Hparse.
  - destruct (filter_loop_spec _ _ _ _ Hrun) as (kept & -> & _ & Hall). simpl.
    eapply Forall_impl; [exact Hall |].
    intros token (d & status & Hin & Heq & Hd).
    exists d, status, token_data. repeat split; assumption.
  - injection Hrun as <-. constructor.
Qed.

(** X23: [get_filtered_rankings] raises [ValueError] on an empty
    [criteria_filters] without touching the wrapper.  Every token it returns
    is a dict of the fetched rank list with [_filter_status] added, and for
    every threshold whose criteria maps to a field the token's value is not
    below the minimum. *)
Theorem get_filtered_rankings_thresholds (self : GMGNWrapper.t) (chain : Chain)
    (primary_criteria : SortCriteria)
    (criteria_filters : list (SortCriteria * pyfloat))
    (time_period : TimePeriod) (direction : SortDirection) :
  let res := GMGNWrapper.get_filtered_rankings self chain primary_criteria
               criteria_filters time_period direction in
  (criteria_filters = [] → res = (self, Raise ValueError))
  ∧ (∀ tokens, res.2 = Ok tokens →
       ∃ response,
         (GMGNWrapper.get_token_rankings self chain time_period primary_criteria
            direction true false false).2 = Ok response
         ∧ Forall (λ token,
                     ∃ d status token_data,
                       GMGNWrapper.parse_token_data response = Some token_data
                       ∧ VDict d ∈ token_data
                       ∧ token = VDict (<["_filter_status" := VDict status]> d)
                       ∧ Forall (at_least d) criteria_filters) tokens).
Proof.
  split.
  - intros ->. reflexivity.
  - apply get_filtered_rankings_ok.
Qed.

Lemma get_filtered_rankings_draws (self : GMGNWrapper.t) (chain : Chain)
    (primary_criteria : SortCriteria) (threshold : SortCriteria * pyfloat)
    (rest : list (SortCriteria * pyfloat))
    (time_period : TimePeriod) (direction : SortDirection) :
  (GMGNWrapper.sessions_made self <
   GMGNWrapper.sessions_made
     (GMGNWrapper.get_filtered_rankings self chain primary_criteria
        (threshold :: rest) time_period direction).1)%nat.
Proof.
  unfold GMGNWrapper.get_filtered_rankings.
  pose proof (get_token_rankings_spec self chain time_period primary_criteria
                direction true false false) as (attempts & Hrange & _ & Hsessions & _).
  destruct (GMGNWrapper.get_token_rankings self chain time_period primary_criteria
              direction true false false) as [self' response].
  simpl in *. lia.
Qed.

(** X24: the [get_high_value_tokens] of the wrapper raises [ValueError],
    leaving the wrapper untouched, exactly when none of the three minimums is
    above zero.  In the tokens it returns, the volume, market cap and
    liquidity are not below the minimums that are above zero. *)
Theorem wrapper_high_value_tokens (self : GMGNWrapper.t) (chain : Chain)
    (primary_criteria : SortCriteria)
    (min_volume min_market_cap min_liquidity : pyfloat) (time_period : TimePeriod) :
  let res := GMGNWrapper.get_high_value_tokens self chain primary_criteria
               min_volume min_market_cap min_liquidity time_period in
  (res = (self, Raise ValueError)
     ↔ fgt min_volume (float_of_Z 0) = false
       ∧ fgt min_market_cap (float_of_Z 0) = false
       ∧ fgt min_liquidity (float_of_Z 0) = false)
  ∧ (∀ tokens, res.2 = Ok tokens →
       Forall (λ token,
                 ∃ d status,
                   token = VDict (<["_filter_status" := VDict status]> d)
                   ∧ (fgt min_volume (float_of_Z 0) = true
                      → at_least d (VOLUME, min_volume))
                   ∧ (fgt min_market_cap (float_of_Z 0) = true
                      → at_least d (MARKETCAP, min_market_cap))
                   ∧ (fgt min_liquidity (float_of_Z 0) = true
                      → at_least d (LIQUIDITY, min_liquidity))) tokens).
Proof.
  intros res. subst res. unfold GMGNWrapper.get_high_value_tokens.
  set (criteria_filters :=
         (if fgt min_volume (float_of_Z 0) then [(VOLUME, min_volume)] else [])
         ++ (if fgt min_market_cap (float_of_Z 0) then [(MARKETCAP, min_market_cap)] else [])
         ++ (if fgt min_liquidity (float_of_Z 0) then [(LIQUIDITY, min_liquidity)] else [])).
  assert (Hnil : criteria_filters = []
                 ↔ fgt min_volume (float_of_Z 0) = false
                   ∧ fgt min_market_cap (float_of_Z 0) = false
                   ∧ fgt min_liquidity (float_of_Z 0) = false).
  { unfold criteria_filters.
    destruct (fgt min_volume _), (fgt min_market_cap _), (fgt min_liquidity _);
      simpl; split; try discriminate; try tauto;
      intros (? & ? & ?); discriminate. }
  assert (Hmem : ∀ d, Forall (at_least d) criteria_filters →
            (fgt min_volume (float_of_Z 0) = true → at_least d (VOLUME, min_volume))
            ∧ (fgt min_market_cap (float_of_Z 0) = true
               → at_least d (MARKETCAP, min_market_cap))
            ∧ (fgt min_liquidity (float_of_Z 0) = true
               → at_least d (LIQUIDITY, min_liquidity))).
  { intros d Hall. rewrite Forall_forall in Hall. unfold criteria_filters in Hall.
    repeat split; intros Hpos; apply Hall; rewrite Hpos;
      destruct (fgt min_volume _), (fgt min_market_cap _); simpl;
      repeat first [ apply list_elem_of_here | apply list_elem_of_further ]. }
  destruct criteria_filters as [| threshold rest] eqn:Hfilters.
  - split.
    + split; [intros _; apply Hnil; reflexivity | reflexivity].
    + discriminate.
  - split.
    + split.
      * intros Hres. exfalso.
        pose proof (get_filtered_rankings_draws self chain primary_criteria
                      threshold rest time_period DESCENDING) as Hdraw.
        rewrite Hres in Hdraw. simpl in Hdraw. lia.
      * intros Hall. apply Hnil in Hall. discriminate.
    + intros tokens Hok.
      destruct (get_filtered_rankings_ok _ _ _ _ _ _ _ Hok) as (response & _ & Hall).
      eapply Forall_impl; [exact Hall |].
      intros token (d & status & token_data & _ & _ & Heq & Hd).
      exists d, status. split; [exact Heq |]. exact (Hmem d Hd).
Qed.

End MoreWrapperFilters.

(** The wrapper's filter on the sample volumes: the token with a volume above
    the minimum is kept and marked, the tokens with a missing or null volume
    count as zero and are dropped. *)
Example wrapper_high_value_on_sample :
  let world := constant_world (Response 200 "{}" (inl volume_response)) in
  (@GMGNWrapper.get_high_value_tokens no_numeric_strings world
     (@sample_wrapper world) SOLANA VOLUME (FNum 500000) (FNum 0) (FNum 0)
     TWENTY_FOUR_HOURS).2
  = Ok [VDict (<["_filter_status" :=
                   VDict {["volume" :=
                     VDict (<["value" := VInt 2000000]>
                            (<["threshold" := VFloat (FNum 500000)]>
                             {["passed" := VBool true]}))]}]>
               (<["symbol" := VStr "BIG"]> {["volume" := VInt 2000000]}))].
Proof. vm_compute. reflexivity. Qed.

(** The rugcheck filter on three tokens: the two the service scores pass a
    maximum of 0.3, the one it does not know is dropped. *)
Example rugcheck_filter_on_sample :
  @filter_safe_tokens_by_rugcheck no_numeric_strings sample_rugcheck
    no_exception_text
    [addressed_token "good"; addressed_token "unknown"; addressed_token "edge"]
    SOLANA (FNum (3 # 10))
  = Ok [addressed_token "good"; addressed_token "edge"].
Proof. vm_compute. reflexivity. Qed.

(** A raw score of 83 against a maximum of 0.17: the risk is
    [1.0 - 83 / 100.0], which is 0.17000000000000004 and above the maximum,
    so the token is dropped. *)
Example rugcheck_filter_rounding :
  @filter_safe_tokens_by_rugcheck no_numeric_strings sample_rugcheck
    no_exception_text [addressed_token "edge"] SOLANA (round_double (17 # 100))
  = Ok []
  ∧ @filter_safe_tokens_by_rugcheck no_numeric_strings sample_rugcheck
      no_exception_text [addressed_token "edge"] SOLANA (FNum (17 # 100))
    = Ok [].
Proof. vm_compute. split; reflexivity. Qed.
